(** * Scripnya: a proxy pool that keeps a Nodepay session alive

    Shallow embedding of [src/Scripnya.py] and proofs about it.

    The script is asynchronous Python.  Its functions are embedded as
    follows.
    - Python values that travel through the script (decoded JSON bodies,
      the session record, [None]) are values of [json].
    - A Python exception is a value of [exc]; a computation that may raise
      returns a [result].
    - The module-level globals ([status_connect], [browser_id],
      [account_info]) and the session file form an explicit state that is
      threaded through the task bodies by the monad [M].
    - What the outside world answers (HTTP replies, the uuid generator, the
      scheduler's choice of completed tasks, whether a file may be opened
      for writing) is an argument of the function that consumes it.
    - [render_profile_info] is a coroutine.  [resume] runs it from one
      [await] to the next, and [run] is the event loop resuming the tasks
      in the order of a schedule over the shared state.  The function
      [render_profile_info] is the run with no other task in between and
      with the file write granted (lemma [uninterrupted_granted]). *)

From Stdlib Require Import List String Ascii ZArith NArith Bool Lia.
From Stdlib Require Import DecimalString.
From Stdlib Require DecimalFacts DecimalPos.
Import ListNotations.

Open Scope string_scope.
Open Scope list_scope.

(* ================================================================== *)
(** * Python values, exceptions and the operators the script applies *)
(* ================================================================== *)

(** Values produced by [json.load] / [response.json()].  Numbers are the
    integers; documents with a fraction or an exponent are outside this
    development.  A [dict] keeps its items in insertion order. *)
#[warnings="-register-all"]
Inductive json : Type :=
| JNull
| JBool (b : bool)
| JInt (z : Z)
| JStr (s : string)
| JList (l : list json)
| JObj (d : list (string * json)).

(** The exceptions that occur in the script. [SystemExit] is raised by
    [exit()] and is the only one that is not a subclass of [Exception]. *)
Inductive exc : Type :=
| ValueError (msg : string)
| TypeError
| KeyError
| IndexError
| AttributeError
| ClientError
| ContentError
| OSError
| SystemExit.

Inductive result (A : Type) : Type :=
| Ok (a : A)
| Raise (e : exc).

Arguments Ok {A} a.
Arguments Raise {A} e.

Definition is_Exception (e : exc) : bool :=
  match e with SystemExit => false | _ => true end.

Definition rbind {A B} (r : result A) (k : A -> result B) : result B :=
  match r with Ok a => k a | Raise e => Raise e end.

Declare Scope py_scope.
Delimit Scope py_scope with py.
Notation "x <-- r ;; k" := (rbind r (fun x => k))
  (at level 61, r at next level, right associativity) : py_scope.
Open Scope py_scope.

(** ** Dictionaries: association lists in insertion order *)

Section Dict.
Context {K V : Type} (eqb : K -> K -> bool).

Fixpoint dict_get (d : list (K * V)) (k : K) : option V :=
  match d with
  | [] => None
  | (k', v) :: d' => if eqb k' k then Some v else dict_get d' k
  end.

Definition dict_mem (d : list (K * V)) (k : K) : bool :=
  match dict_get d k with Some _ => true | None => false end.

(** [d[k] = v]: an existing key keeps its position. *)
Fixpoint dict_set (d : list (K * V)) (k : K) (v : V) : list (K * V) :=
  match d with
  | [] => [(k, v)]
  | (k', v') :: d' =>
      if eqb k' k then (k', v) :: d' else (k', v') :: dict_set d' k v
  end.

(** [d.pop(k)]: [None] stands for [KeyError]. *)
Fixpoint dict_pop (d : list (K * V)) (k : K) : option (V * list (K * V)) :=
  match d with
  | [] => None
  | (k', v) :: d' =>
      if eqb k' k then Some (v, d')
      else match dict_pop d' k with
           | Some (w, d'') => Some (w, (k', v) :: d'')
           | None => None
           end
  end.
End Dict.

(** ** Truth value, [in], subscription, [.get], comparisons *)

Definition truthy (v : json) : bool :=
  match v with
  | JNull => false
  | JBool b => b
  | JInt z => negb (z =? 0)%Z
  | JStr s => match s with EmptyString => false | String _ _ => true end
  | JList l => match l with [] => false | _ => true end
  | JObj d => match d with [] => false | _ => true end
  end.

Definition is_substring (needle hay : string) : bool :=
  match index 0 needle hay with Some _ => true | None => false end.

(** [key in obj] for a [str] key. *)
Definition py_in (key : string) (obj : json) : result bool :=
  match obj with
  | JObj d => Ok (dict_mem String.eqb d key)
  | JList l =>
      Ok (existsb (fun e => match e with
                            | JStr s => (s =? key)%string
                            | _ => false
                            end) l)
  | JStr s => Ok (is_substring key s)
  | _ => Raise TypeError
  end.

(** [obj[key]] for a [str] key. *)
Definition py_getitem (obj : json) (key : string) : result json :=
  match obj with
  | JObj d =>
      match dict_get String.eqb d key with
      | Some v => Ok v
      | None => Raise KeyError
      end
  | _ => Raise TypeError
  end.

(** [obj.get(key, default)]: only a [dict] has the method. *)
Definition py_get (obj : json) (key : string) (default : json) : result json :=
  match obj with
  | JObj d =>
      Ok (match dict_get String.eqb d key with
          | Some v => v
          | None => default
          end)
  | _ => Raise AttributeError
  end.

Definition int_of_bool (b : bool) : Z := if b then 1%Z else 0%Z.

(** [v < n] and [v == n] against an [int] literal. *)
Definition py_lt (v : json) (n : Z) : result bool :=
  match v with
  | JInt z => Ok (z <? n)%Z
  | JBool b => Ok (int_of_bool b <? n)%Z
  | _ => Raise TypeError
  end.

Definition py_eq_int (v : json) (n : Z) : bool :=
  match v with
  | JInt z => (z =? n)%Z
  | JBool b => (int_of_bool b =? n)%Z
  | _ => false
  end.

(* ================================================================== *)
(** * The script: constants and [valid_resp] *)
(* ================================================================== *)

Definition PING_INTERVAL : Z := 60.
Definition SESSION_FILE : string := "session.json".

Definition CONNECTED : Z := 1.
Definition DISCONNECTED : Z := 2.
Definition NONE_CONNECTION : Z := 3.

Definition invalid_response : exc := ValueError "Invalid response".

(** [valid_resp(resp)]: the three tests of the [or] chain are evaluated
    left to right and the chain stops at the first true one. *)
Definition valid_resp (resp : json) : result json :=
  if negb (truthy resp) then Raise invalid_response
  else
    has <-- py_in "code" resp ;;
    if negb has then Raise invalid_response
    else
      code <-- py_getitem resp "code" ;;
      neg <-- py_lt code 0 ;;
      if neg then Raise invalid_response else Ok resp.

(* ================================================================== *)
(** * State and exceptions *)
(* ================================================================== *)

(** A computation over a mutable state [St] that returns or raises.  What
    was written to the state before an exception is raised stays
    written. *)
Definition M (St A : Type) : Type := St -> result A * St.

Definition ret {St A} (a : A) : M St A := fun s => (Ok a, s).
Definition raise {St A} (e : exc) : M St A := fun s => (Raise e, s).
Definition lift {St A} (r : result A) : M St A := fun s => (r, s).
Definition get {St} : M St St := fun s => (Ok s, s).
Definition modify {St} (f : St -> St) : M St unit := fun s => (Ok tt, f s).

Definition bind {St A B} (m : M St A) (k : A -> M St B) : M St B :=
  fun s =>
    match m s with
    | (Ok a, s') => k a s'
    | (Raise e, s') => (Raise e, s')
    end.

Notation "x <- m ;; k" := (bind m (fun x => k))
  (at level 61, m at next level, right associativity) : py_scope.
Notation "m ;; k" := (bind m (fun _ => k))
  (at level 61, right associativity) : py_scope.

(** [try: m / except Exception as e: h e] *)
Definition try_except {St A} (m : M St A) (h : exc -> M St A) : M St A :=
  fun s =>
    match m s with
    | (Ok a, s') => (Ok a, s')
    | (Raise e, s') => if is_Exception e then h e s' else (Raise e, s')
    end.

(** [for x in l: body x] *)
Fixpoint mfor {St A} (l : list A) (body : A -> M St unit) : M St unit :=
  match l with
  | [] => ret tt
  | x :: l' => body x ;; mfor l' body
  end.

(* ================================================================== *)
(** * The world outside the script *)
(* ================================================================== *)

(** Outcome of one request through [aiohttp]: the request fails in the
    network layer (connection error, timeout), or a response arrives with
    a status and a body; [body = None] when [response.json()] cannot
    decode it. *)
Inductive http_result : Type :=
| NetError
| Response (status : Z) (body : option json).

(** State of [SESSION_FILE]: missing ([None] below), present but not
    readable, or present with a text content. *)
Inductive file : Type :=
| Unreadable
| Text (content : string).

(** The [json] module as the script uses it: [json.dump] produces a text,
    [json.load] decodes one or raises ([None]). *)
Class JsonCodec : Type := {
  json_dumps : json -> string;
  json_loads : string -> option json
}.

(* ================================================================== *)
(** * The per-proxy task: globals, session store, remote calls *)
(* ================================================================== *)

Record globals : Type := {
  status_connect : Z;
  browser_id : json;
  account_info : json
}.

(** The state a task body runs in: the module globals and the session
    file.  [write_session_file] is the write that the operating system
    grants; [save_session_info_io] below is the one it may refuse. *)
Record env : Type := {
  glob : globals;
  session_file : option file
}.

(** The globals as the module initialises them (lines 26-28). *)
Definition initial_globals : globals :=
  {| status_connect := NONE_CONNECTION;
     browser_id := JNull;
     account_info := JObj [] |}.

Definition set_status_connect (v : Z) : M env unit :=
  modify (fun s =>
    {| glob := {| status_connect := v;
                  browser_id := browser_id (glob s);
                  account_info := account_info (glob s) |};
       session_file := session_file s |}).

Definition set_browser_id (v : json) : M env unit :=
  modify (fun s =>
    {| glob := {| status_connect := status_connect (glob s);
                  browser_id := v;
                  account_info := account_info (glob s) |};
       session_file := session_file s |}).

Definition set_account_info (v : json) : M env unit :=
  modify (fun s =>
    {| glob := {| status_connect := status_connect (glob s);
                  browser_id := browser_id (glob s);
                  account_info := v |};
       session_file := session_file s |}).

Definition write_session_file (content : string) : M env unit :=
  modify (fun s => {| glob := glob s; session_file := Some (Text content) |}).

(** [async with session.post(...) as response]: a network failure raises
    out of the [async with]. *)
Definition http (r : http_result) : M env (Z * option json) :=
  match r with
  | NetError => raise ClientError
  | Response status body => ret (status, body)
  end.

(** [await response.json()] *)
Definition response_json (body : option json) : M env json :=
  match body with
  | Some v => ret v
  | None => raise ContentError
  end.

Section Tasks.
Context {codec : JsonCodec}.

(** [load_session_info()]; the value [JNull] is Python's [None]. *)
Definition load_session_info : M env json :=
  s <- get ;;
  match session_file s with
  | None => ret JNull
  | Some Unreadable => ret JNull
  | Some (Text content) =>
      match json_loads content with
      | Some session_data => ret session_data
      | None => ret JNull
      end
  end.

(** [save_session_info(data)]: the file is written first; the log line
    then evaluates [data.get('uid')]. *)
Definition save_session_info (data : json) : M env unit :=
  write_session_file (json_dumps data) ;;
  _ <- lift (py_get data "uid" JNull) ;;
  ret tt.

(** [render_profile_info(proxy, token)], run from its first line to its
    [return] with no other task in between and with the file write
    granted.  [fresh] is the string [uuidv4()] returns, [post] the
    outcome of the create-session request; each is consulted only on
    the branch that uses it.  The function is a coroutine: [resume]
    below runs it from one [await] to the next. *)
Definition render_profile_info (fresh : string) (post : http_result)
  : M env json :=
  session_info <- load_session_info ;;
  (if truthy session_info then
     set_account_info session_info ;;
     bid <- lift (py_get session_info "browser_id" JNull) ;;
     set_browser_id bid
   else
     set_browser_id (JStr fresh) ;;
     response <- http post ;;
     if (fst response =? 200)%Z then
       json_resp <- response_json (snd response) ;;
       _ <- lift (valid_resp json_resp) ;;
       data <- lift (py_get json_resp "data" (JObj [])) ;;
       set_account_info data ;;
       uid <- lift (py_get data "uid" JNull) ;;
       if truthy uid then save_session_info data else ret tt
     else ret tt) ;;
  s <- get ;;
  ret (account_info (glob s)).
End Tasks.

(** [handle_ping(proxy, token)]: everything that raises inside the [try]
    ends in [return False]. *)
Definition handle_ping (post : http_result) : M env bool :=
  try_except
    (s <- get ;;
     _ <- lift (py_get (account_info (glob s)) "uid" JNull) ;;
     response <- http post ;;
     if (fst response =? 200)%Z then
       json_resp <- response_json (snd response) ;;
       _ <- lift (valid_resp json_resp) ;;
       code <- lift (py_getitem json_resp "code") ;;
       if py_eq_int code 0 then
         set_status_connect CONNECTED ;;
         ret true
       else ret false
     else ret false)
    (fun _ => ret false).

(** [is_valid_proxy(proxy, token)] on the outcome of its GET request. *)
Definition is_valid_proxy (reply : http_result) : bool :=
  match reply with
  | Response status _ => (status =? 200)%Z
  | NetError => false
  end.

(* ================================================================== *)
(** * The supervisor: [main] *)
(* ================================================================== *)

(** Keys used on the dictionary [tasks]: the script stores under proxy
    strings (lines 171, 182, 187) and looks up and pops under [Task]
    objects (lines 176, 183).  A task is identified by its creation
    number; a string never equals a task. *)
Inductive pyobj : Type :=
| PStr (s : string)
| PTask (id : nat).

Definition pyobj_eqb (a b : pyobj) : bool :=
  match a, b with
  | PStr s, PStr t => (s =? t)%string
  | PTask i, PTask j => Nat.eqb i j
  | _, _ => false
  end.

(** What the supervisor does to the outside, in order. *)
Inductive event : Type :=
| EvValidate (proxy : string)
| EvCreateTask (id : nat) (proxy : string)
| EvWait (pending : list nat)
| EvSleep (seconds : Z).

(** The local variables of [main]; [tasks] maps keys to task numbers. *)
Record sup : Type := {
  all_proxies : list string;
  active_proxies : list string;
  tasks : list (pyobj * nat);
  next_task : nat;
  trace : list event
}.

Definition initial_sup : sup :=
  {| all_proxies := []; active_proxies := []; tasks := [];
     next_task := 0; trace := [] |}.

Definition set_all_proxies (l : list string) : M sup unit :=
  modify (fun s =>
    {| all_proxies := l; active_proxies := active_proxies s;
       tasks := tasks s; next_task := next_task s; trace := trace s |}).

Definition set_active_proxies (l : list string) : M sup unit :=
  modify (fun s =>
    {| all_proxies := all_proxies s; active_proxies := l;
       tasks := tasks s; next_task := next_task s; trace := trace s |}).

Definition set_tasks (d : list (pyobj * nat)) : M sup unit :=
  modify (fun s =>
    {| all_proxies := all_proxies s; active_proxies := active_proxies s;
       tasks := d; next_task := next_task s; trace := trace s |}).

Definition emit (e : event) : M sup unit :=
  modify (fun s =>
    {| all_proxies := all_proxies s; active_proxies := active_proxies s;
       tasks := tasks s; next_task := next_task s;
       trace := trace s ++ [e] |}).

(** [asyncio.create_task(render_profile_info(proxy, token))] *)
Definition create_task (proxy : string) : M sup nat :=
  s <- get ;;
  modify (fun s =>
    {| all_proxies := all_proxies s; active_proxies := active_proxies s;
       tasks := tasks s; next_task := S (next_task s);
       trace := trace s |}) ;;
  emit (EvCreateTask (next_task s) proxy) ;;
  ret (next_task s).

(** [tasks[proxy] = asyncio.create_task(...)] *)
Definition start_task (proxy : string) : M sup unit :=
  t <- create_task proxy ;;
  s <- get ;;
  set_tasks (dict_set pyobj_eqb (tasks s) (PStr proxy) t).

(** [l.remove(x)]: drops the first element equal to [x]; [None] stands
    for [ValueError]. *)
Fixpoint list_remove (x : pyobj) (l : list string) : option (list string) :=
  match l with
  | [] => None
  | y :: l' =>
      if pyobj_eqb (PStr y) x then Some l'
      else match list_remove x l' with
           | Some r => Some (y :: r)
           | None => None
           end
  end.

(** [task.result()]: the returned value, or the task's exception raised
    again in the caller. *)
Definition task_result (outcome : result json) : result json := outcome.

Definition is_None (v : json) : bool :=
  match v with JNull => true | _ => false end.

(** Lines 178-182, the body of [if task.result() is None]. *)
Definition replace_failed (proxy : pyobj) : M sup unit :=
  s <- get ;;
  match list_remove proxy (active_proxies s) with
  | None => raise (ValueError "list.remove(x): x not in list")
  | Some rest =>
      set_active_proxies rest ;;
      s <- get ;;
      match all_proxies s with
      | [] => raise IndexError
      | new_proxy :: backlog =>
          set_all_proxies backlog ;;
          s <- get ;;
          set_active_proxies (active_proxies s ++ [new_proxy]) ;;
          start_task new_proxy
      end
  end.

(** Lines 176-183, the body of [for task in done]. *)
Definition handle_done (outcome_of : nat -> result json) (task : nat)
  : M sup unit :=
  s <- get ;;
  match dict_get pyobj_eqb (tasks s) (PTask task) with
  | None => raise KeyError
  | Some t =>
      let proxy := PTask t in
      r <- lift (task_result (outcome_of task)) ;;
      (if is_None r then replace_failed proxy else ret tt) ;;
      s <- get ;;
      match dict_pop pyobj_eqb (tasks s) (PTask task) with
      | None => raise KeyError
      | Some (_, d) => set_tasks d
      end
  end.

(** Lines 186-187, the body of [for proxy in active_proxies]. *)
Definition rearm (proxy : string) : M sup unit :=
  s <- get ;;
  if dict_mem pyobj_eqb (tasks s) (PStr proxy) then ret tt
  else start_task proxy.

(** One turn of [while True] (lines 174-189).  [done] is the set
    [asyncio.wait] returns, in the order the [for] visits it;
    [asyncio.wait] raises on an empty collection. *)
Definition cycle (done : list nat) (outcome_of : nat -> result json)
  : M sup unit :=
  s <- get ;;
  match tasks s with
  | [] => raise (ValueError "Set of Tasks/Futures is empty.")
  | _ =>
      emit (EvWait (map snd (tasks s))) ;;
      mfor done (handle_done outcome_of) ;;
      s <- get ;;
      mfor (active_proxies s) rearm ;;
      emit (EvSleep PING_INTERVAL)
  end.

(** What [main] is given from outside: the lines of [PROXY_FILE] ([None]
    when reading fails), the line typed at the token prompt, the reply to
    the validation request of the [i]-th candidate, the tasks that
    [asyncio.wait] reports done in the [n]-th turn, and the outcome of
    each task. *)
Record world : Type := {
  proxy_lines : option (list string);
  token_input : string;
  ping_get : nat -> string -> http_result;
  done_at : nat -> list nat;
  outcome_of : nat -> result json
}.

(** [load_proxies(proxy_file)] *)
Definition load_proxies (w : world) : M sup (list string) :=
  match proxy_lines w with
  | Some proxies => ret proxies
  | None => raise SystemExit
  end.

(** Characters [str.strip()] removes, among the code points below 256. *)
Definition is_space (c : ascii) : bool :=
  let n := N_of_ascii c in
  ((9 <=? n) && (n <=? 13) || (28 <=? n) && (n <=? 32)
   || (n =? 133) || (n =? 160))%N.

Fixpoint lstrip (s : string) : string :=
  match s with
  | String c s' => if is_space c then lstrip s' else s
  | EmptyString => EmptyString
  end.

Fixpoint rstrip (s : string) : string :=
  match s with
  | String c s' =>
      match rstrip s' with
      | EmptyString => if is_space c then EmptyString else String c EmptyString
      | r => String c r
      end
  | EmptyString => EmptyString
  end.

Definition strip (s : string) : string := rstrip (lstrip s).

(** Lines 159-161: the validation loop, [i] counting the requests. *)
Fixpoint validate_all (w : world) (i : nat) (candidates : list string)
  : M sup unit :=
  match candidates with
  | [] => ret tt
  | proxy :: rest =>
      emit (EvValidate proxy) ;;
      (if is_valid_proxy (ping_get w i proxy) then
         s <- get ;;
         set_active_proxies (active_proxies s ++ [proxy])
       else ret tt) ;;
      validate_all w (S i) rest
  end.

(** [while True]: [n] turns starting with turn number [k]. *)
Fixpoint polling (w : world) (n k : nat) : M sup unit :=
  match n with
  | O => ret tt
  | S n' => cycle (done_at w k) (outcome_of w) ;; polling w n' (S k)
  end.

(** Lines 152-171: everything before the loop. *)
Definition startup (w : world) : M sup unit :=
  proxies <- load_proxies w ;;
  set_all_proxies proxies ;;
  let token := strip (token_input w) in
  if (token =? EmptyString)%string then raise SystemExit
  else
    set_active_proxies [] ;;
    s <- get ;;
    validate_all w 0 (all_proxies s) ;;
    s <- get ;;
    match active_proxies s with
    | [] => raise SystemExit
    | _ => mfor (active_proxies s) start_task
    end.

(** [main()], observed for [n] turns of its loop. *)
Definition main (w : world) (n : nat) : M sup unit :=
  startup w ;; polling w n 0.

(* ================================================================== *)
(** * A codec: the text format of [json.dump] and [json.load] *)
(* ================================================================== *)

(** The text [json.dump] writes with its default settings (separators
    [", "] and [": "], every character outside the printable ASCII range
    escaped) and the reader of [json.load] on the integer fragment.  A
    [string] is read as a sequence of code points below 256.  The bound
    that recent interpreters put on the number of digits of an integer
    literal is not modelled. *)
Module Json.

Definition dquote : ascii := "034"%char.
Definition backslash : ascii := "\"%char.

Definition is_ws (c : ascii) : bool :=
  ((c =? " ") || (c =? "009") || (c =? "010") || (c =? "013"))%char.

Fixpoint skip_ws (s : list ascii) : list ascii :=
  match s with
  | c :: s' => if is_ws c then skip_ws s' else s
  | [] => []
  end.

Definition is_digit (c : ascii) : bool :=
  let n := N_of_ascii c in ((48 <=? n) && (n <=? 57))%N.

Definition hex_digit (n : N) : ascii :=
  if (n <? 10)%N then ascii_of_N (48 + n) else ascii_of_N (87 + n).

Definition hex_val (c : ascii) : option N :=
  let n := N_of_ascii c in
  if ((48 <=? n) && (n <=? 57))%N then Some (n - 48)%N
  else if ((97 <=? n) && (n <=? 102))%N then Some (n - 87)%N
  else if ((65 <=? n) && (n <=? 70))%N then Some (n - 55)%N
  else None.

(** ** Writing *)

Definition escape_char (c : ascii) : list ascii :=
  let n := N_of_ascii c in
  if (c =? dquote)%char then [backslash; dquote]
  else if (c =? backslash)%char then [backslash; backslash]
  else if (n =? 10)%N then [backslash; "n"%char]
  else if (n =? 13)%N then [backslash; "r"%char]
  else if (n =? 9)%N then [backslash; "t"%char]
  else if (n =? 8)%N then [backslash; "b"%char]
  else if (n =? 12)%N then [backslash; "f"%char]
  else if ((32 <=? n) && (n <=? 126))%N then [c]
  else [backslash; "u"%char; "0"%char; "0"%char;
        hex_digit (n / 16); hex_digit (n mod 16)].

Fixpoint escape (s : string) : list ascii :=
  match s with
  | EmptyString => []
  | String c s' => escape_char c ++ escape s'
  end.

Definition print_string (s : string) : list ascii :=
  dquote :: escape s ++ [dquote].

Definition print_int (z : Z) : list ascii :=
  list_ascii_of_string (NilZero.string_of_int (Z.to_int z)).

Definition sep_item : list ascii := [","%char; " "%char].
Definition sep_key : list ascii := [":"%char; " "%char].

Fixpoint print (v : json) : list ascii :=
  match v with
  | JNull => list_ascii_of_string "null"
  | JBool true => list_ascii_of_string "true"
  | JBool false => list_ascii_of_string "false"
  | JInt z => print_int z
  | JStr s => print_string s
  | JList l =>
      "["%char ::
      (fix elems (l : list json) : list ascii :=
         match l with
         | [] => ["]"%char]
         | x :: l' =>
             print x ++
             match l' with
             | [] => ["]"%char]
             | _ :: _ => sep_item ++ elems l'
             end
         end) l
  | JObj d =>
      "{"%char ::
      (fix members (d : list (string * json)) : list ascii :=
         match d with
         | [] => ["}"%char]
         | (k, x) :: d' =>
             print_string k ++ sep_key ++ print x ++
             match d' with
             | [] => ["}"%char]
             | _ :: _ => sep_item ++ members d'
             end
         end) d
  end.

Definition dumps (v : json) : string := string_of_list_ascii (print v).

(** ** Reading *)

Definition push (c : ascii) (r : option (string * list ascii))
  : option (string * list ascii) :=
  match r with
  | Some (s, rest) => Some (String c s, rest)
  | None => None
  end.

Definition unescape (e : ascii) : option ascii :=
  if (e =? dquote)%char then Some dquote
  else if (e =? backslash)%char then Some backslash
  else if (e =? "/")%char then Some "/"%char
  else if (e =? "b")%char then Some "008"%char
  else if (e =? "f")%char then Some "012"%char
  else if (e =? "n")%char then Some "010"%char
  else if (e =? "r")%char then Some "013"%char
  else if (e =? "t")%char then Some "009"%char
  else None.

Definition hex4 (a b c d : ascii) : option N :=
  match hex_val a, hex_val b, hex_val c, hex_val d with
  | Some x, Some y, Some z, Some w =>
      Some (((x * 16 + y) * 16 + z) * 16 + w)%N
  | _, _, _, _ => None
  end.

(** The characters of a string literal after its opening quote.  A raw
    control character is refused, as is an escape that denotes a code
    point from 256 on. *)
Fixpoint scan_string (s : list ascii) : option (string * list ascii) :=
  match s with
  | [] => None
  | c :: s1 =>
      if (c =? dquote)%char then Some (EmptyString, s1)
      else if (c =? backslash)%char then
        match s1 with
        | [] => None
        | e :: s2 =>
            if (e =? "u")%char then
              match s2 with
              | h1 :: h2 :: h3 :: h4 :: s3 =>
                  match hex4 h1 h2 h3 h4 with
                  | Some n =>
                      if (n <? 256)%N
                      then push (ascii_of_N n) (scan_string s3)
                      else None
                  | None => None
                  end
              | _ => None
              end
            else
              match unescape e with
              | Some c' => push c' (scan_string s2)
              | None => None
              end
        end
      else if (N_of_ascii c <? 32)%N then None
      else push c (scan_string s1)
  end.

Fixpoint span_digits (s : list ascii) : list ascii * list ascii :=
  match s with
  | c :: s' =>
      if is_digit c
      then let (ds, rest) := span_digits s' in (c :: ds, rest)
      else ([], s)
  | [] => ([], [])
  end.

Definition float_mark (s : list ascii) : bool :=
  match s with
  | c :: _ => ((c =? ".") || (c =? "e") || (c =? "E"))%char
  | [] => false
  end.

(** An integer literal: an optional minus sign, then a single zero or
    a non-zero digit followed by digits.  A further digit after a
    leading zero never continues a document; a [.], [e] or [E] after
    the digits makes a float or continues no document either: all of
    these are refused here. *)
Definition scan_int (s : list ascii) : option (Z * list ascii) :=
  let '(negative, s1) :=
    match s with
    | c :: s' => if (c =? "-")%char then (true, s') else (false, s)
    | [] => (false, s)
    end in
  let '(ds, rest) := span_digits s1 in
  match ds with
  | [] => None
  | d :: ds' =>
      if (d =? "0")%char && match ds' with [] => false | _ => true end
      then None
      else if float_mark rest then None
      else
        match NilEmpty.uint_of_string (string_of_list_ascii ds) with
        | Some u =>
            let n := Z.of_N (N.of_uint u) in
            Some (if negative then (- n)%Z else n, rest)
        | None => None
        end
  end.

Fixpoint starts_with (p s : list ascii) : option (list ascii) :=
  match p, s with
  | [], _ => Some s
  | a :: p', b :: s' => if (a =? b)%char then starts_with p' s' else None
  | _ :: _, [] => None
  end.

(** [dict(pairs)]: a repeated key keeps its first position and its last
    value. *)
Definition dict_of_pairs (ps : list (string * json))
  : list (string * json) :=
  fold_left (fun d kv => dict_set String.eqb d (fst kv) (snd kv)) ps [].

Definition scan_atom (s : list ascii) : option (json * list ascii) :=
  match starts_with (list_ascii_of_string "null") s with
  | Some r => Some (JNull, r)
  | None =>
  match starts_with (list_ascii_of_string "true") s with
  | Some r => Some (JBool true, r)
  | None =>
  match starts_with (list_ascii_of_string "false") s with
  | Some r => Some (JBool false, r)
  | None =>
  match scan_int s with
  | Some (z, r) => Some (JInt z, r)
  | None => None
  end end end end.

(** One value at the head of [s]; [fuel] bounds the nesting. *)
Fixpoint parse_value (fuel : nat) (s : list ascii)
  : option (json * list ascii) :=
  match fuel with
  | O => None
  | S fuel' =>
      match s with
      | [] => None
      | c :: s1 =>
          if (c =? dquote)%char then
            match scan_string s1 with
            | Some (str, r) => Some (JStr str, r)
            | None => None
            end
          else if (c =? "{")%char then
            match skip_ws s1 with
            | [] => None
            | c2 :: r2 =>
                if (c2 =? "}")%char then Some (JObj [], r2)
                else
                  match parse_members fuel' (c2 :: r2) with
                  | Some (ps, r) => Some (JObj (dict_of_pairs ps), r)
                  | None => None
                  end
            end
          else if (c =? "[")%char then
            match skip_ws s1 with
            | [] => None
            | c2 :: r2 =>
                if (c2 =? "]")%char then Some (JList [], r2)
                else
                  match parse_elems fuel' (c2 :: r2) with
                  | Some (vs, r) => Some (JList vs, r)
                  | None => None
                  end
            end
          else scan_atom s
      end
  end

with parse_elems (fuel : nat) (s : list ascii)
  : option (list json * list ascii) :=
  match fuel with
  | O => None
  | S fuel' =>
      match parse_value fuel' s with
      | None => None
      | Some (v, r) =>
          match skip_ws r with
          | [] => None
          | c :: r1 =>
              if (c =? "]")%char then Some ([v], r1)
              else if (c =? ",")%char then
                match parse_elems fuel' (skip_ws r1) with
                | Some (vs, r2) => Some (v :: vs, r2)
                | None => None
                end
              else None
          end
      end
  end

with parse_members (fuel : nat) (s : list ascii)
  : option (list (string * json) * list ascii) :=
  match fuel with
  | O => None
  | S fuel' =>
      match s with
      | [] => None
      | q :: s1 =>
          if negb (q =? dquote)%char then None
          else
            match scan_string s1 with
            | None => None
            | Some (key, r1) =>
                match skip_ws r1 with
                | [] => None
                | c :: r2 =>
                    if negb (c =? ":")%char then None
                    else
                      match parse_value fuel' (skip_ws r2) with
                      | None => None
                      | Some (v, r3) =>
                          match skip_ws r3 with
                          | [] => None
                          | c3 :: r4 =>
                              if (c3 =? "}")%char
                              then Some ([(key, v)], r4)
                              else if (c3 =? ",")%char then
                                match parse_members fuel' (skip_ws r4) with
                                | Some (ps, r5) => Some ((key, v) :: ps, r5)
                                | None => None
                                end
                              else None
                          end
                      end
                end
            end
      end
  end.

(** [json.loads]: one value, surrounded by optional whitespace and
    nothing else. *)
Definition loads (text : string) : option json :=
  let s := skip_ws (list_ascii_of_string text) in
  match parse_value (S (List.length s)) s with
  | Some (v, rest) =>
      match skip_ws rest with
      | [] => Some v
      | _ :: _ => None
      end
  | None => None
  end.

(** Records the round trip is stated for: the keys of every [dict] are
    pairwise different. *)
Fixpoint unique_keys (v : json) : Prop :=
  match v with
  | JList l =>
      (fix all (l : list json) : Prop :=
         match l with
         | [] => True
         | x :: l' => unique_keys x /\ all l'
         end) l
  | JObj d =>
      NoDup (map fst d) /\
      (fix all (d : list (string * json)) : Prop :=
         match d with
         | [] => True
         | (_, x) :: d' => unique_keys x /\ all d'
         end) d
  | _ => True
  end.

(** The two loops of [print] on their own, and the nesting [print]
    builds up, which bounds the fuel [parse_value] needs. *)
Fixpoint print_elems (l : list json) : list ascii :=
  match l with
  | [] => ["]"%char]
  | x :: l' =>
      print x ++
      match l' with
      | [] => ["]"%char]
      | _ :: _ => sep_item ++ print_elems l'
      end
  end.

Fixpoint print_members (d : list (string * json)) : list ascii :=
  match d with
  | [] => ["}"%char]
  | (k, x) :: d' =>
      print_string k ++ sep_key ++ print x ++
      match d' with
      | [] => ["}"%char]
      | _ :: _ => sep_item ++ print_members d'
      end
  end.

Fixpoint cost (v : json) : nat :=
  match v with
  | JList l =>
      S ((fix go (l : list json) : nat :=
            match l with
            | [] => 0
            | x :: l' => S (cost x + go l')
            end) l)
  | JObj d =>
      S ((fix go (d : list (string * json)) : nat :=
            match d with
            | [] => 0
            | (_, x) :: d' => S (cost x + go d')
            end) d)
  | _ => 1
  end.

Fixpoint cost_elems (l : list json) : nat :=
  match l with
  | [] => 0
  | x :: l' => S (cost x + cost_elems l')
  end.

Fixpoint cost_members (d : list (string * json)) : nat :=
  match d with
  | [] => 0
  | (_, x) :: d' => S (cost x + cost_members d')
  end.

Definition no_digit_ahead (rest : list ascii) : Prop :=
  match rest with
  | [] => True
  | c :: _ => is_digit c = false
  end.

(** What may follow a value inside a document that [print] wrote. *)
Definition delimited (rest : list ascii) : Prop :=
  match rest with
  | [] => True
  | c :: _ => c = ","%char \/ c = "]"%char \/ c = "}"%char
  end.

(** The round trip of one value, as the induction carries it. *)
Definition reads_back (v : json) : Prop :=
  unique_keys v ->
  forall (fuel : nat) (rest : list ascii),
    cost v <= fuel -> delimited rest ->
    parse_value fuel (print v ++ rest) = Some (v, rest).

End Json.

#[export] Instance python_json : JsonCodec :=
  {| json_dumps := Json.dumps; json_loads := Json.loads |}.

(* ================================================================== *)
(** * What the specification calls things *)
(* ================================================================== *)

(** The status marker of a response body: the value under ["code"]. *)
Definition marker (resp : json) : option json :=
  match resp with
  | JObj d => dict_get String.eqb d "code"
  | _ => None
  end.

Definition resp_absent (resp : json) : Prop := resp = JNull.
Definition lacks_marker (resp : json) : Prop := marker resp = None.
Definition marker_negative (resp : json) : Prop :=
  exists z, marker resp = Some (JInt z) /\ (z < 0)%Z.

(** The three grounds on which the create-session contract refuses a
    response. *)
Definition refused_by_contract (resp : json) : Prop :=
  resp_absent resp \/ lacks_marker resp \/ marker_negative resp.

Definition numeric (v : json) : Prop :=
  match v with
  | JInt _ | JBool _ => True
  | _ => False
  end.

(** A body that is absent or an object whose marker, if any, is a
    number ([bool] counts as [int] in Python). *)
Definition contract_shaped (resp : json) : Prop :=
  (resp = JNull \/ exists d, resp = JObj d) /\
  (forall v, marker resp = Some v -> numeric v).

(** The marker equals the "ok" sentinel. *)
Definition marker_ok (body : json) : Prop :=
  exists c, marker body = Some c /\ py_eq_int c 0 = true.

Definition is_dict (v : json) : Prop := exists d, v = JObj d.

(** The outcomes the specification gives a heartbeat. *)
Inductive HeartbeatOutcome : Type :=
| Success
| Rejected
| ProxyUnreachable.

Definition with_status (v : Z) (s : env) : env :=
  {| glob := {| status_connect := v;
                browser_id := browser_id (glob s);
                account_info := account_info (glob s) |};
     session_file := session_file s |}.

(** Persisted state that [load] cannot use: the file cannot be read, or
    its text is not a JSON document. *)
Definition malformed {codec : JsonCodec} (f : file) : Prop :=
  match f with
  | Unreadable => True
  | Text content => json_loads content = None
  end.

(** The candidates whose validation request is answered with status 200,
    in their original order; [i] numbers the requests. *)
Fixpoint validated_from (w : world) (i : nat) (candidates : list string)
  : list string :=
  match candidates with
  | [] => []
  | proxy :: rest =>
      if is_valid_proxy (ping_get w i proxy)
      then proxy :: validated_from w (S i) rest
      else validated_from w (S i) rest
  end.

(** The pool invariant of the specification, with [all_proxies] as the
    backlog: no proxy is in both sequences. *)
Definition pool_disjoint (s : sup) : Prop :=
  forall p, In p (active_proxies s) -> ~ In p (all_proxies s).

(** No key of the dictionary is a task. *)
Definition str_keys (d : list (pyobj * nat)) : Prop :=
  forall k t, In (k, t) d -> exists p, k = PStr p.

Definition is_validation (e : event) : Prop :=
  match e with EvValidate _ => True | _ => False end.

(** A create-session reply that the service rejects. *)
Definition rejected_reply : http_result :=
  Response 200 (Some (JObj [("code", JInt (-1))])).

Definition first_run : env :=
  {| glob := initial_globals; session_file := None |}.

(** The scenario of the specification: three candidates of which the
    second fails validation; the task of the first is the first to
    complete, and it fails on a rejected create-session reply. *)
Definition scenario : world :=
  {| proxy_lines := Some ["p1"; "p2"; "p3"];
     token_input := "token";
     ping_get := fun _ proxy =>
                   if (proxy =? "p2")%string then NetError
                   else Response 200 None;
     done_at := fun _ => [0];
     outcome_of := fun _ =>
                     fst (render_profile_info "uuid" rejected_reply
                            first_run) |}.

(** A create-session reply that carries account data. *)
Definition created_reply : http_result :=
  Response 200
    (Some (JObj [("code", JInt 0); ("data", JObj [("uid", JStr "u1")])])).

(** The process after a restart: the globals are initial again, the
    session file is what the earlier run left. *)
Definition restarted (s : env) : env :=
  {| glob := initial_globals; session_file := session_file s |}.

(** The supervisor with two running tasks and nothing left in
    [all_proxies]. *)
Definition exhausted : sup :=
  {| all_proxies := [];
     active_proxies := ["p1"; "p3"];
     tasks := [(PStr "p1", 0); (PStr "p3", 1)];
     next_task := 2;
     trace := [] |}.

(* ================================================================== *)
(** * More of the script: the proxy file, the prompt, the entry point *)
(* ================================================================== *)

(** The characters at which [str.splitlines()] ends a line, among the
    code points below 256: LF, VT, FF, CR, FS, GS, RS and NEL. *)
Definition is_linebreak (c : ascii) : bool :=
  let n := N_of_ascii c in
  ((10 <=? n) && (n <=? 13) || (28 <=? n) && (n <=? 30) || (n =? 133))%N.

(** [str.splitlines()] from inside a line of which [cur] has been read:
    CR LF ends one line, and no empty line is added at the end of the
    text. *)
Fixpoint split_from (cur : string) (s : string) : list string :=
  match s with
  | EmptyString =>
      match cur with
      | EmptyString => []
      | String _ _ => [cur]
      end
  | String c s' =>
      if is_linebreak c then
        cur ::
        match s' with
        | String c' s'' =>
            if ((c =? "013") && (c' =? "010"))%char
            then split_from EmptyString s''
            else split_from EmptyString s'
        | EmptyString => split_from EmptyString s'
        end
      else split_from (cur ++ String c EmptyString)%string s'
  end.

Definition splitlines (s : string) : list string :=
  split_from EmptyString s.

(** [load_proxies(proxy_file)] on the state of the file, [Text content]
    being the text that [file.read()] returns: whatever goes wrong in
    [open] or [read] ends in [SystemExit]. *)
Definition read_proxies (f : option file) : result (list string) :=
  match f with
  | Some (Text content) => Ok (splitlines content)
  | Some Unreadable => Raise SystemExit
  | None => Raise SystemExit
  end.

(** What [main] is given when [PROXY_FILE] is in state [f]. *)
Definition with_proxy_file (f : option file) (w : world) : world :=
  {| proxy_lines := match read_proxies f with
                    | Ok proxies => Some proxies
                    | Raise _ => None
                    end;
     token_input := token_input w;
     ping_get := ping_get w;
     done_at := done_at w;
     outcome_of := outcome_of w |}.

(** A text file written one line at a time, each ended by LF. *)
Fixpoint unlines (ls : list string) : string :=
  match ls with
  | [] => EmptyString
  | l :: ls' => (l ++ String "010" (unlines ls'))%string
  end.

Fixpoint string_forallb (f : ascii -> bool) (s : string) : bool :=
  match s with
  | EmptyString => true
  | String c s' => f c && string_forallb f s'
  end.

(** [show_warning()]: anything but an empty answer ends in [exit()]. *)
Definition show_warning (confirm : string) : result unit :=
  if (strip confirm =? EmptyString)%string then Ok tt else Raise SystemExit.

(** How the process ends, or that it is still in its loop after the
    turns observed. *)
Inductive ending : Type :=
| Declined
| TerminatedByUser
| Traceback (e : exc)
| StillPolling.

(** The block under [if __name__ == '__main__'] (lines 192-197):
    [show_warning()] runs outside the [try], and the [except] clause
    catches the [SystemExit] of [main] and nothing else that [main]
    raises. *)
Definition script (confirm : string) (w : world) (n : nat) : ending * sup :=
  match show_warning confirm with
  | Raise _ => (Declined, initial_sup)
  | Ok _ =>
      match main w n initial_sup with
      | (Ok _, s) => (StillPolling, s)
      | (Raise SystemExit, s) => (TerminatedByUser, s)
      | (Raise e, s) => (Traceback e, s)
      end
  end.

(** What a task may run, in the order it runs it: a heartbeat or a session
    establishment, each with what the outside answers. *)
Inductive task_op : Type :=
| OpPing (post : http_result)
| OpRender (fresh : string) (post : http_result).

Definition run_op {codec : JsonCodec} (op : task_op) (s : env) : env :=
  match op with
  | OpPing post => snd (handle_ping post s)
  | OpRender fresh post => snd (render_profile_info fresh post s)
  end.

Definition run_ops {codec : JsonCodec} (ops : list task_op) (s : env) : env :=
  fold_left (fun s op => run_op op s) ops s.

(** The state with one global, or the session file, replaced. *)
Definition with_browser_id (v : json) (s : env) : env :=
  {| glob := {| status_connect := status_connect (glob s);
                browser_id := v;
                account_info := account_info (glob s) |};
     session_file := session_file s |}.

Definition with_account_info (v : json) (s : env) : env :=
  {| glob := {| status_connect := status_connect (glob s);
                browser_id := browser_id (glob s);
                account_info := v |};
     session_file := session_file s |}.

Definition with_session_text (content : string) (s : env) : env :=
  {| glob := glob s; session_file := Some (Text content) |}.

(** The task-creation events for the proxies of [l], numbered from [i]. *)
Fixpoint creations (i : nat) (l : list string) : list event :=
  match l with
  | [] => []
  | p :: l' => EvCreateTask i p :: creations (S i) l'
  end.

(* ================================================================== *)
(** * The task body as a coroutine *)
(* ================================================================== *)

(** What the outside answers to one task: the string [uuidv4()] returns,
    the outcome of the create-session request, and whether the operating
    system grants [open(SESSION_FILE, 'w')] (line 79).  It does not when
    [SESSION_FILE] is a directory or may not be written. *)
Record answers : Type := {
  uuid : string;
  reply : http_result;
  write_granted : bool
}.

(** The points at which the coroutine [render_profile_info] can be
    suspended, and its two ways to end.  It runs without a break from its
    first line into [session.post] (line 136), from the arrival of the
    response into [response.json()] (line 138), from the decoded body to
    the end of the two [async with] blocks, whose exits are awaited, and
    from there through [return account_info] (line 148).  The branch
    that adopts a stored session awaits nothing. *)
Inductive coro : Type :=
| Created (a : answers)
| Requesting (a : answers)
| Decoding (a : answers) (body : option json)
| Closing
| Returned (v : json)
| Raised (e : exc).

(** A coroutine whose segment raises has ended. *)
Definition settle (r : result coro * env) : coro * env :=
  match r with
  | (Ok c, s) => (c, s)
  | (Raise e, s) => (Raised e, s)
  end.

Section Coroutine.
Context {codec : JsonCodec}.

(** [save_session_info(data)] with the [open] of line 79 as it is, not
    guarded: refused, it raises before anything is written. *)
Definition save_session_info_io (granted : bool) (data : json) : M env unit :=
  (if granted then write_session_file (json_dumps data) else raise OSError) ;;
  _ <- lift (py_get data "uid" JNull) ;;
  ret tt.

(** Lines 129-134: the stored session is adopted, or a device id is
    generated; the result tells whether a session has to be requested. *)
Definition render_begin (fresh : string) : M env bool :=
  session_info <- load_session_info ;;
  if truthy session_info then
    set_account_info session_info ;;
    bid <- lift (py_get session_info "browser_id" JNull) ;;
    set_browser_id bid ;;
    ret false
  else
    set_browser_id (JStr fresh) ;;
    ret true.

(** Lines 139-145, on the decoded body of a response with status 200. *)
Definition render_store (granted : bool) (json_resp : json) : M env unit :=
  _ <- lift (valid_resp json_resp) ;;
  data <- lift (py_get json_resp "data" (JObj [])) ;;
  set_account_info data ;;
  uid <- lift (py_get data "uid" JNull) ;;
  if truthy uid then save_session_info_io granted data else ret tt.

(** Line 148: the global is read when the coroutine gets there. *)
Definition render_return : M env json :=
  s <- get ;;
  ret (account_info (glob s)).

(** One segment of the coroutine, from where it is suspended to its next
    suspension or to its end. *)
Definition resume (c : coro) (s : env) : coro * env :=
  match c with
  | Created a =>
      settle ((request <- render_begin (uuid a) ;;
               if request : bool then ret (Requesting a)
               else v <- render_return ;; ret (Returned v)) s)
  | Requesting a =>
      settle ((response <- http (reply a) ;;
               if (fst response =? 200)%Z
               then ret (Decoding a (snd response))
               else ret Closing) s)
  | Decoding a body =>
      settle ((json_resp <- response_json body ;;
               render_store (write_granted a) json_resp ;;
               ret Closing) s)
  | Closing =>
      settle ((v <- render_return ;; ret (Returned v)) s)
  | Returned v => (Returned v, s)
  | Raised e => (Raised e, s)
  end.

(** The coroutine resumed [n] times in a row: no other task runs in
    between.  Four segments take a new coroutine to its end. *)
Fixpoint resume_n (n : nat) (c : coro) (s : env) : coro * env :=
  match n with
  | O => (c, s)
  | S n' => resume_n n' (fst (resume c s)) (snd (resume c s))
  end.

Definition uninterrupted (a : answers) (s : env) : coro * env :=
  resume_n 4 (Created a) s.

(** The tasks of the event loop share the globals and the file.  The loop
    resumes one task at a time; [resume_nth i] resumes the task at
    position [i]. *)
Fixpoint resume_nth (i : nat) (l : list coro) (s : env) {struct l}
  : list coro * env :=
  match l with
  | [] => ([], s)
  | c :: l' =>
      match i with
      | O => (fst (resume c s) :: l', snd (resume c s))
      | S j => (c :: fst (resume_nth j l' s), snd (resume_nth j l' s))
      end
  end.

(** The event loop over a schedule: the positions of the tasks it
    resumes, in order.  A task that is created later than another is a
    task that is resumed later for the first time. *)
Fixpoint run (schedule : list nat) (l : list coro) (s : env)
  : list coro * env :=
  match schedule with
  | [] => (l, s)
  | i :: rest =>
      run rest (fst (resume_nth i l s)) (snd (resume_nth i l s))
  end.
End Coroutine.

(** A create-session reply that is accepted and whose ["data"] is
    [null]: the one reply that makes line 140 store [None]. *)
Definition brings_None (post : http_result) : Prop :=
  exists body,
    post = Response 200 (Some body) /\
    valid_resp body = Ok body /\
    py_get body "data" (JObj []) = Ok JNull.

(** Nothing the coroutine still has to consume brings [None]. *)
Definition harmless (c : coro) : Prop :=
  match c with
  | Created a | Requesting a => ~ brings_None (reply a)
  | Decoding _ body => ~ brings_None (Response 200 body)
  | Closing => True
  | Returned v => v <> JNull
  | Raised _ => True
  end.


(** The answers [a] with the write granted or refused. *)
Definition with_write (granted : bool) (a : answers) : answers :=
  {| uuid := uuid a; reply := reply a; write_granted := granted |}.

(* ================================================================== *)
(** * Proofs: response validation and the heartbeat *)
(* ================================================================== *)

Lemma valid_resp_object (d : list (string * json)) :
  d <> [] ->
  valid_resp (JObj d) =
  match dict_get String.eqb d "code" with
  | None => Raise invalid_response
  | Some c =>
      match py_lt c 0 with
      | Ok true => Raise invalid_response
      | Ok false => Ok (JObj d)
      | Raise e => Raise e
      end
  end.
Proof.
  intros Hd. unfold valid_resp, py_in, py_getitem, dict_mem.
  destruct d as [|kv d']; [congruence|]. cbn [truthy negb].
  cbn [rbind].
  destruct (dict_get String.eqb (kv :: d') "code") as [c|]; cbn; [|reflexivity].
  destruct (py_lt c 0) as [[|]|e]; reflexivity.
Qed.

Lemma valid_resp_ok_marker (resp v : json) :
  valid_resp resp = Ok v ->
  v = resp /\ exists c, marker resp = Some c /\ py_lt c 0 = Ok false.
Proof.
  unfold valid_resp. destruct (truthy resp) eqn:Ht; cbn [negb]; [|discriminate].
  destruct resp as [| b | z | s | l | d]; cbn [py_in rbind]; try discriminate.
  - destruct (is_substring "code" s); cbn; discriminate.
  - destruct (existsb _ l); cbn; discriminate.
  - unfold dict_mem, py_getitem, marker.
    destruct (dict_get String.eqb d "code") as [c|]; cbn; [|discriminate].
    destruct (py_lt c 0) as [[|]|e] eqn:Hlt; cbn; try discriminate.
    intros [= <-]. split; [reflexivity | now exists c].
Qed.

(** C10, as the claim states it, fails: a body whose marker is present
    and not a number is refused on none of the three grounds, and yet
    validation does not pass; it raises [TypeError]. *)
Lemma valid_resp_contract_counterexample :
  ~ (forall resp : json,
        (valid_resp resp = Raise invalid_response <-> refused_by_contract resp)
        /\ (~ refused_by_contract resp -> valid_resp resp = Ok resp)).
Proof.
  intros H. destruct (H (JObj [("code", JNull)])) as [_ Hpass].
  assert (Hv : valid_resp (JObj [("code", JNull)]) = Raise TypeError)
    by reflexivity.
  rewrite Hpass in Hv; [discriminate|].
  intros [Ha | [Hl | [z [Hz _]]]]; cbv in Ha || cbv in Hl || cbv in Hz;
    discriminate.
Qed.

(** C10 (amended).  For a response body that is absent or a JSON object
    whose ["code"], when present, is an integer or a boolean,
    [valid_resp] raises
    [ValueError("Invalid response")] exactly when the body is absent,
    lacks ["code"], or carries a negative ["code"]; every other such body
    is returned unchanged. *)
Theorem valid_resp_contract (resp : json) :
  contract_shaped resp ->
  (valid_resp resp = Raise invalid_response <-> refused_by_contract resp)
  /\ (~ refused_by_contract resp -> valid_resp resp = Ok resp).
Proof.
  intros [[-> | [d ->]] Hnum].
  - split; [split|]; intros; try reflexivity.
    + now left.
    + exfalso. apply H. now left.
  - destruct d as [|kv d'].
    { split; [split|]; intros; try reflexivity.
      - right; left; reflexivity.
      - exfalso. apply H. right; left; reflexivity. }
    rewrite valid_resp_object by congruence.
    unfold refused_by_contract, resp_absent, lacks_marker, marker_negative.
    cbn [marker] in *.
    destruct (dict_get String.eqb (kv :: d') "code") as [c|] eqn:Hc.
    + specialize (Hnum c eq_refl).
      destruct c as [| b | z | s | l | o]; try contradiction; cbn [py_lt].
      * replace (int_of_bool b <? 0)%Z with false
          by (destruct b; reflexivity).
        split; [split|]; intros; try reflexivity; try discriminate.
        destruct H as [H | [H | [z [H _]]]]; discriminate.
      * destruct (Z.ltb_spec z 0).
        -- split; [split|]; intros; try reflexivity.
           ++ right; right. exists z. now split.
           ++ exfalso. apply H0. right; right. exists z. now split.
        -- split; [split|]; intros; try reflexivity; try discriminate.
           destruct H0 as [H0 | [H0 | [z' [H0 Hneg]]]]; try discriminate.
           injection H0 as ->. lia.
    + split; [split|]; intros; try reflexivity.
      * right; left; reflexivity.
      * exfalso. apply H. right; left; reflexivity.
Qed.

(** The amended C10 at an accepted and at a refused body. *)
Lemma valid_resp_contract_witness :
  valid_resp (JObj [("code", JInt 0); ("data", JObj [])])
  = Ok (JObj [("code", JInt 0); ("data", JObj [])])
  /\ valid_resp (JObj [("code", JInt (-1))]) = Raise invalid_response.
Proof.
  split.
  - apply (valid_resp_contract
             (JObj [("code", JInt 0); ("data", JObj [])])).
    + split; [right; eexists; reflexivity|].
      intros v Hv. cbv in Hv. injection Hv as <-. exact I.
    + intros [Ha | [Hl | [z [Hz Hneg]]]]; try discriminate.
      cbv in Hz. injection Hz as <-. lia.
  - apply (valid_resp_contract (JObj [("code", JInt (-1))])).
    + split; [right; eexists; reflexivity|].
      intros v Hv. cbv in Hv. injection Hv as <-. exact I.
    + right; right. exists (-1)%Z. split; [reflexivity | lia].
Defined.

(** Symbolic execution of a task body: the monad and the state accessors
    are unfolded, the Python operators are left standing. *)
Ltac run_env :=
  cbv beta iota zeta delta
    [bind get lift ret raise modify try_except http response_json
     set_status_connect set_browser_id set_account_info write_session_file
     with_status];
  cbn [fst snd glob session_file status_connect browser_id account_info
       truthy is_Exception].

Lemma valid_resp_raises (resp : json) (e : exc) :
  valid_resp resp = Raise e -> is_Exception e = true.
Proof.
  unfold valid_resp. destruct (truthy resp); cbn [negb].
  2:{ intros [= <-]. reflexivity. }
  destruct (py_in "code" resp) as [has|e1] eqn:Hin; cbn [rbind].
  2:{ destruct resp; cbn in Hin; try discriminate;
      injection Hin as <-; intros [= <-]; reflexivity. }
  destruct has; cbn [negb]; [|intros [= <-]; reflexivity].
  destruct (py_getitem resp "code") as [c|e2] eqn:Hget; cbn [rbind].
  2:{ destruct resp; cbn in Hget; try (injection Hget as <-);
      try (intros [= <-]; reflexivity).
      destruct (dict_get String.eqb d "code"); try discriminate.
      injection Hget as <-. intros [= <-]. reflexivity. }
  destruct (py_lt c 0) as [[|]|e3] eqn:Hlt; cbn [rbind]; try discriminate.
  - intros [= <-]. reflexivity.
  - destruct c; cbn in Hlt; try discriminate;
      injection Hlt as <-; intros [= <-]; reflexivity.
Qed.

Lemma marker_ok_valid (body : json) :
  marker_ok body -> valid_resp body = Ok body /\
                    exists c, py_getitem body "code" = Ok c /\
                              py_eq_int c 0 = true.
Proof.
  intros [c [Hm Hc]]. destruct body as [| | | | |d]; try discriminate.
  cbn [marker] in Hm. split.
  - rewrite valid_resp_object by (intros ->; discriminate).
    rewrite Hm. destruct c as [|b|z| | |]; try discriminate; cbn in *.
    + destruct b; [discriminate|reflexivity].
    + apply Z.eqb_eq in Hc. subst z. reflexivity.
  - exists c. cbn [py_getitem]. rewrite Hm. now split.
Qed.

Lemma getitem_marker (body c : json) :
  py_getitem body "code" = Ok c -> marker body = Some c.
Proof.
  destruct body as [| | | | |d]; try discriminate. cbn.
  destruct (dict_get String.eqb d "code"); [|discriminate].
  now intros [= ->].
Qed.

(** [handle_ping] unfolded into its paths. *)
Lemma handle_ping_paths (post : http_result) (s : env) :
  handle_ping post s =
  match py_get (account_info (glob s)) "uid" JNull, post with
  | Ok _, Response status (Some body) =>
      if (status =? 200)%Z then
        match valid_resp body, py_getitem body "code" with
        | Ok _, Ok c =>
            if py_eq_int c 0 then (Ok true, with_status CONNECTED s)
            else (Ok false, s)
        | _, _ => (Ok false, s)
        end
      else (Ok false, s)
  | _, _ => (Ok false, s)
  end.
Proof.
  unfold handle_ping. run_env.
  destruct (py_get (account_info (glob s)) "uid" JNull) as [u|e] eqn:Hu.
  2:{ destruct (account_info (glob s)); cbn in Hu; try discriminate;
      injection Hu as <-; reflexivity. }
  destruct post as [|status [body|]]; run_env; try reflexivity.
  - destruct (status =? 200)%Z; run_env; [|reflexivity].
    destruct (valid_resp body) as [v|e] eqn:Hv; run_env.
    + destruct (py_getitem body "code") as [c|e] eqn:Hc; run_env.
      * destruct (py_eq_int c 0); reflexivity.
      * apply valid_resp_ok_marker in Hv. destruct Hv as [_ [c [Hm _]]].
        destruct body; cbn in Hm, Hc; try discriminate.
        rewrite Hm in Hc. discriminate.
    + rewrite (valid_resp_raises _ _ Hv).
      destruct (py_getitem body "code"); reflexivity.
  - destruct (status =? 200)%Z; reflexivity.
Qed.

(** C4, as the claim states it, fails: a heartbeat answered with
    [{"code": -1}] and one that never gets an answer both make
    [handle_ping] return [False], so no reading of its result yields
    [Rejected] for the first and [ProxyUnreachable] for the second. *)
Lemma handle_ping_outcome_counterexample :
  let s := {| glob := initial_globals; session_file := None |} in
  let rejected := Response 200 (Some (JObj [("code", JInt (-1))])) in
  fst (handle_ping rejected s) = Ok false /\
  fst (handle_ping NetError s) = Ok false /\
  ~ (exists classify : result bool -> HeartbeatOutcome,
        classify (fst (handle_ping rejected s)) = Rejected /\
        classify (fst (handle_ping NetError s)) = ProxyUnreachable).
Proof.
  cbv zeta.
  assert (H1 : fst (handle_ping
                      (Response 200 (Some (JObj [("code", JInt (-1))])))
                      {| glob := initial_globals; session_file := None |})
               = Ok false) by reflexivity.
  assert (H2 : fst (handle_ping NetError
                      {| glob := initial_globals; session_file := None |})
               = Ok false) by reflexivity.
  repeat split; try assumption.
  intros [classify [Hr Hu]]. rewrite H1 in Hr. rewrite H2 in Hu. congruence.
Qed.

(** C4 (amended).  [handle_ping] returns [True] exactly when the request
    is answered with status 200 and a body whose ["code"] equals 0 (the
    shared [account_info] being a [dict], without which no request is
    sent), and it then sets [status_connect] to [CONNECTED] and changes
    nothing else.  In every other case, whether a non-zero marker such as
    -1, a network failure or a timeout, it returns [False] and leaves the
    state as it was: the result does not tell a rejection from an
    unreachable proxy. *)
Theorem handle_ping_outcome (post : http_result) (s : env) :
  (fst (handle_ping post s) = Ok true <->
     is_dict (account_info (glob s)) /\
     exists body, post = Response 200 (Some body) /\ marker_ok body)
  /\ (fst (handle_ping post s) = Ok true ->
      snd (handle_ping post s) = with_status CONNECTED s)
  /\ (fst (handle_ping post s) <> Ok true ->
      handle_ping post s = (Ok false, s)).
Proof.
  rewrite handle_ping_paths.
  destruct (py_get (account_info (glob s)) "uid" JNull) as [u|e] eqn:Hu.
  2:{ repeat split; try discriminate.
      intros [[d Hd] _]. rewrite Hd in Hu. discriminate. }
  assert (Hd : is_dict (account_info (glob s))).
  { destruct (account_info (glob s)) as [| | | | |d]; try discriminate.
    now exists d. }
  destruct post as [|status [body|]].
  1,3: repeat split; try discriminate; intros [_ [b [Hb _]]]; discriminate.
  destruct (Z.eqb_spec status 200) as [->|Hne].
  2:{ repeat split; try discriminate.
      intros [_ [b [[= Hs _] _]]]. contradiction. }
  destruct (valid_resp body) as [v|e] eqn:Hv.
  2:{ repeat split; try discriminate.
      intros [_ [b [[= <-] Hok]]]. apply marker_ok_valid in Hok.
      destruct Hok as [Hok _]. congruence. }
  destruct (py_getitem body "code") as [c|e] eqn:Hc.
  2:{ repeat split; try discriminate.
      intros [_ [b [[= <-] Hok]]]. apply marker_ok_valid in Hok.
      destruct Hok as [_ [c [Hok _]]]. congruence. }
  destruct (py_eq_int c 0) eqn:Hz; cbn [fst snd].
  - split; [split|split]; try reflexivity; try congruence.
    intros _. split; [assumption|].
    exists body. split; [reflexivity|]. exists c.
    split; [now apply getitem_marker | assumption].
  - repeat split; try discriminate.
    intros [_ [b [[= <-] Hok]]]. apply marker_ok_valid in Hok.
    destruct Hok as [_ [c' [Hc' Hz']]]. congruence.
Qed.

(** The amended C4 on the replies of the specification's scenario: a
    body with marker 0 is a success and connects. *)
Lemma handle_ping_outcome_witness :
  snd (handle_ping (Response 200 (Some (JObj [("code", JInt 0)]))) first_run)
  = with_status CONNECTED first_run.
Proof.
  apply (handle_ping_outcome
           (Response 200 (Some (JObj [("code", JInt 0)]))) first_run).
  reflexivity.
Defined.

(* ================================================================== *)
(** * Proofs: the task body and the session store *)
(* ================================================================== *)

Section TaskFacts.
Context {codec : JsonCodec}.

Lemma load_session_info_pure (s : env) :
  snd (load_session_info s) = s.
Proof.
  unfold load_session_info. run_env.
  destruct (session_file s) as [[|content]|]; try reflexivity.
  destruct (json_loads content); reflexivity.
Qed.

Lemma load_session_info_returns (s : env) :
  exists v, load_session_info s = (Ok v, s).
Proof.
  unfold load_session_info. run_env.
  destruct (session_file s) as [[|content]|]; try (eexists; reflexivity).
  destruct (json_loads content); eexists; reflexivity.
Qed.

Lemma load_malformed (f : file) (g : globals) :
  malformed f ->
  load_session_info {| glob := g; session_file := Some f |}
  = (Ok JNull, {| glob := g; session_file := Some f |}).
Proof.
  unfold load_session_info. run_env.
  destruct f as [|content]; cbn [malformed]; [reflexivity|].
  intros ->. reflexivity.
Qed.

Lemma get_ok_is_dict (v w d : json) (k : string) :
  py_get v k d = Ok w -> is_dict v.
Proof.
  destruct v as [| | | | |o]; try discriminate. intros _. now exists o.
Qed.

Lemma truthy_not_None (v : json) : truthy v = true -> v <> JNull.
Proof. intros H ->. discriminate. Qed.

Lemma is_dict_not_None (v : json) : is_dict v -> v <> JNull.
Proof. intros [d ->]. discriminate. Qed.

Lemma not_None_test (v : json) : v <> JNull -> is_None v = false.
Proof. destruct v; try reflexivity. congruence. Qed.

(** With no usable session file, whatever goes wrong in the
    create-session call leaves [render_profile_info] as an exception:
    nothing in the task body catches it. *)
Lemma establish_failure_raises
    (fresh : string) (post : http_result) (s : env) :
  fst (load_session_info s) = Ok JNull ->
  (post = NetError ->
   fst (render_profile_info fresh post s) = Raise ClientError) /\
  (post = Response 200 None ->
   fst (render_profile_info fresh post s) = Raise ContentError) /\
  (forall body e,
      post = Response 200 (Some body) -> valid_resp body = Raise e ->
      fst (render_profile_info fresh post s) = Raise e).
Proof.
  intros Hload.
  destruct (load_session_info_returns s) as [v Hv].
  rewrite Hv in Hload. cbn in Hload. injection Hload as ->.
  unfold render_profile_info. run_env. rewrite Hv. run_env.
  repeat split.
  - intros ->. reflexivity.
  - intros ->. reflexivity.
  - intros body e -> He. run_env. cbn [Z.eqb Pos.eqb]. run_env.
    rewrite He. reflexivity.
Qed.

(** A session record found on disk is adopted as it is: it becomes
    [account_info], its ["browser_id"] (or [None]) becomes [browser_id],
    no request is made and the file stays. *)
Lemma session_record_adopted
    (fresh : string) (post : http_result) (s : env)
    (kv : string * json) (d : list (string * json)) :
  fst (load_session_info s) = Ok (JObj (kv :: d)) ->
  render_profile_info fresh post s =
  (Ok (JObj (kv :: d)),
   {| glob := {| status_connect := status_connect (glob s);
                 browser_id :=
                   match dict_get String.eqb (kv :: d) "browser_id" with
                   | Some v => v
                   | None => JNull
                   end;
                 account_info := JObj (kv :: d) |};
      session_file := session_file s |}).
Proof.
  intros Hload.
  destruct (load_session_info_returns s) as [v Hv].
  rewrite Hv in Hload. cbn in Hload. injection Hload as ->.
  unfold render_profile_info. run_env. rewrite Hv. run_env.
  cbn [py_get]. run_env. reflexivity.
Qed.

End TaskFacts.

(** Where "malformed" ends: a file that holds a JSON document which is
    not an object is loaded as it is, and the task body then raises when
    it asks the loaded value for its ["browser_id"]. *)
Lemma session_file_of_wrong_shape :
  let s := {| glob := initial_globals; session_file := Some (Text "[1]") |} in
  fst (load_session_info s) = Ok (JList [JInt 1]) /\
  fst (render_profile_info "a" created_reply s) = Raise AttributeError.
Proof. split; reflexivity. Qed.

(* ================================================================== *)
(** * Proofs: the task body as a coroutine *)
(* ================================================================== *)

(** Symbolic execution of one segment. *)
Ltac run_coro :=
  cbv beta iota zeta delta
    [resume settle render_begin render_store render_return
     save_session_info_io bind get lift ret raise modify http response_json
     set_status_connect set_browser_id set_account_info write_session_file];
  cbn [fst snd glob session_file status_connect browser_id account_info
       truthy harmless uuid reply write_granted].

Section CoroutineFacts.
Context {codec : JsonCodec}.

Lemma valid_resp_ok_same (resp v : json) :
  valid_resp resp = Ok v -> valid_resp resp = Ok resp.
Proof.
  intros H. destruct (valid_resp_ok_marker _ _ H) as [-> _]. exact H.
Qed.

(** A segment that ends in [return] has read the global in the state it
    leaves. *)
Lemma resume_returns (c : coro) (s : env) (v : json) :
  (forall u, c <> Returned u) ->
  fst (resume c s) = Returned v ->
  v = account_info (glob (snd (resume c s))).
Proof.
  intros Hc. destruct c as [a|a|a body| |u|e].
  - run_coro. destruct (load_session_info_returns s) as [si ->]. run_coro.
    destruct (truthy si); run_coro; [|discriminate].
    destruct (py_get si "browser_id" JNull); run_coro; [|discriminate].
    now intros [= <-].
  - run_coro. destruct (reply a) as [|status body]; run_coro; [discriminate|].
    destruct (status =? 200)%Z; discriminate.
  - run_coro. destruct body as [j|]; run_coro; [|discriminate].
    destruct (valid_resp j); run_coro; [|discriminate].
    destruct (py_get j "data" (JObj [])) as [data|]; run_coro; [|discriminate].
    destruct (py_get data "uid" JNull) as [uid|]; run_coro; [|discriminate].
    destruct (truthy uid); run_coro; [|discriminate].
    destruct (write_granted a); run_coro; discriminate.
  - run_coro. now intros [= <-].
  - now destruct (Hc u).
  - discriminate.
Qed.

(** One segment keeps [None] out of [account_info] and out of what is
    returned, as long as no reply brings it. *)
Lemma resume_harmless (c : coro) (s : env) :
  account_info (glob s) <> JNull -> harmless c ->
  account_info (glob (snd (resume c s))) <> JNull /\
  harmless (fst (resume c s)).
Proof.
  intros Hs Hc. destruct c as [a|a|a body| |u|e]; cbn [harmless] in Hc.
  - run_coro. destruct (load_session_info_returns s) as [si ->]. run_coro.
    destruct (truthy si) eqn:Hsi; run_coro; [|now split].
    pose proof (truthy_not_None _ Hsi).
    destruct (py_get si "browser_id" JNull); run_coro; now split.
  - run_coro. destruct (reply a) as [|status body] eqn:Hr; run_coro;
      [now split|].
    destruct (status =? 200)%Z eqn:Hst; run_coro; [|now split].
    apply Z.eqb_eq in Hst. subst status. now split.
  - run_coro. destruct body as [j|]; run_coro; [|now split].
    destruct (valid_resp j) as [r|] eqn:Hv; run_coro; [|now split].
    apply valid_resp_ok_same in Hv.
    destruct (py_get j "data" (JObj [])) as [data|] eqn:Hd; run_coro;
      [|now split].
    assert (Hdata : data <> JNull).
    { intros ->. apply Hc. now exists j. }
    destruct (py_get data "uid" JNull) as [uid|]; run_coro; [|now split].
    destruct (truthy uid); run_coro; [|now split].
    destruct (write_granted a); run_coro; now split.
  - run_coro. now split.
  - now split.
  - now split.
Qed.

Lemma resume_nth_harmless (i : nat) (l : list coro) (s : env) :
  account_info (glob s) <> JNull -> Forall harmless l ->
  account_info (glob (snd (resume_nth i l s))) <> JNull /\
  Forall harmless (fst (resume_nth i l s)).
Proof.
  revert i. induction l as [|c l IH]; intros i Hs Hl;
    [cbn [resume_nth fst snd]; now split|].
  inversion Hl as [|c' l' Hc Hl']; subst.
  destruct i as [|j]; cbn [resume_nth fst snd].
  - destruct (resume_harmless c s Hs Hc). split; [assumption|].
    now constructor.
  - destruct (IH j Hs Hl'). split; [assumption|]. now constructor.
Qed.

Lemma run_harmless (schedule : list nat) :
  forall (l : list coro) (s : env),
    account_info (glob s) <> JNull -> Forall harmless l ->
    account_info (glob (snd (run schedule l s))) <> JNull /\
    Forall harmless (fst (run schedule l s)).
Proof.
  induction schedule as [|i rest IH]; intros l s Hs Hl;
    [cbn [run fst snd]; now split|].
  cbn [run]. destruct (resume_nth_harmless i l s Hs Hl).
  now apply IH.
Qed.

(** C7 (amended).  A task body that reaches its [return] returns the
    value the shared [account_info] holds at that moment.  Whatever the
    number of tasks and the order in which the event loop resumes them,
    that value is not [None], so that the supervisor's test
    [task.result() is None] fails, provided [account_info] was not
    [None] at the start and no task is sent an accepted create-session
    reply that has [null] for ["data"]. *)
Theorem render_profile_info_result
    (bodies : list answers) (schedule : list nat) (s : env) :
  account_info (glob s) <> JNull ->
  Forall (fun a => ~ brings_None (reply a)) bodies ->
  (forall c s0 v,
      (forall u, c <> Returned u) ->
      fst (resume c s0) = Returned v ->
      v = account_info (glob (snd (resume c s0)))) /\
  (forall v,
      In (Returned v) (fst (run schedule (map Created bodies) s)) ->
      v <> JNull /\ is_None v = false).
Proof.
  intros Hs Hb. split; [exact resume_returns|].
  intros v Hin.
  assert (Hl : Forall harmless (map Created bodies)).
  { apply Forall_map. exact Hb. }
  destruct (run_harmless schedule _ s Hs Hl) as [_ Hall].
  rewrite Forall_forall in Hall. specialize (Hall _ Hin).
  cbn [harmless] in Hall. split; [assumption | now apply not_None_test].
Qed.

(** With the write granted, [save_session_info_io] is
    [save_session_info]. *)
Lemma save_session_info_granted (data : json) :
  save_session_info_io true data = save_session_info data.
Proof. reflexivity. Qed.

(** Run with no other task in between and with the write granted, the
    coroutine is [render_profile_info]. *)
Lemma uninterrupted_granted (a : answers) (s : env) :
  write_granted a = true ->
  uninterrupted a s
  = settle (match render_profile_info (uuid a) (reply a) s with
            | (Ok v, s') => (Ok (Returned v), s')
            | (Raise e, s') => (Raise e, s')
            end).
Proof.
  intros Hw. unfold uninterrupted, render_profile_info, save_session_info.
  cbn [resume_n]. run_coro. run_env.
  destruct (load_session_info_returns s) as [si ->]. run_coro.
  destruct (truthy si); run_coro.
  - destruct (py_get si "browser_id" JNull); reflexivity.
  - destruct (reply a) as [|status body]; run_coro; [reflexivity|].
    destruct (status =? 200)%Z; run_coro; [|reflexivity].
    destruct body as [j|]; run_coro; [|reflexivity].
    destruct (valid_resp j); run_coro; [|reflexivity].
    destruct (py_get j "data" (JObj [])) as [data|]; run_coro; [|reflexivity].
    destruct (py_get data "uid" JNull) as [uid|]; run_coro; [|reflexivity].
    destruct (truthy uid); run_coro; [|reflexivity].
    rewrite Hw. run_coro. reflexivity.
Qed.




(** A session that is accepted goes to the file, or the refused [open]
    ends the task: nothing in the task body catches the [OSError]. *)
Lemma accepted_session_is_saved_or_fatal
    (a : answers) (s : env) (body data uid : json) :
  fst (load_session_info s) = Ok JNull ->
  reply a = Response 200 (Some body) ->
  valid_resp body = Ok body ->
  py_get body "data" (JObj []) = Ok data ->
  py_get data "uid" JNull = Ok uid -> truthy uid = true ->
  uninterrupted a s
  = if write_granted a
    then (Returned data,
          {| glob := {| status_connect := status_connect (glob s);
                        browser_id := JStr (uuid a);
                        account_info := data |};
             session_file := Some (Text (json_dumps data)) |})
    else (Raised OSError,
          {| glob := {| status_connect := status_connect (glob s);
                        browser_id := JStr (uuid a);
                        account_info := data |};
             session_file := session_file s |}).
Proof.
  intros Hload Hr Hv Hd Hu Ht.
  destruct (load_session_info_returns s) as [si Hsi].
  rewrite Hsi in Hload. cbn [fst] in Hload. injection Hload as ->.
  unfold uninterrupted. cbn [resume_n]. run_coro. rewrite Hsi. run_coro.
  rewrite Hr. run_coro. cbn [Z.eqb Pos.eqb]. run_coro.
  rewrite Hv. run_coro. rewrite Hd. run_coro. rewrite Hu. run_coro.
  rewrite Ht. destruct (write_granted a); run_coro; reflexivity.
Qed.

(** A single task in the event loop runs uninterrupted. *)
Lemma run_single (a : answers) (s : env) :
  run [0; 0; 0; 0] [Created a] s
  = ([fst (uninterrupted a s)], snd (uninterrupted a s)).
Proof. reflexivity. Qed.

End CoroutineFacts.

(** C7, as the claim states it, fails.  Two tasks start with no session
    file.  While the first waits for its reply, the second is answered
    [{"code": 0, "data": null}]: it stores [None] in [account_info] and
    raises.  The first is then answered with status 500, completes
    without raising and returns that [None]. *)
Lemma render_profile_info_result_counterexample :
  ~ (forall (bodies : list answers) (schedule : list nat) (v : json),
       In (Returned v) (fst (run schedule (map Created bodies) first_run)) ->
       v <> JNull).
Proof.
  intros H.
  apply (H [ {| uuid := "a"; reply := Response 500 None;
                write_granted := true |};
             {| uuid := "b";
                reply := Response 200
                           (Some (JObj [("code", JInt 0); ("data", JNull)]));
                write_granted := true |} ]
           [0; 1; 1; 1; 0; 0] JNull); [|reflexivity].
  vm_compute. left. reflexivity.
Qed.

(** The amended C7 on two tasks of a first run, resumed in turn: one
    creates the session, the other is answered with status 500. *)
Lemma render_profile_info_result_witness :
  JObj [("uid", JStr "u1")] <> JNull /\
  is_None (JObj [("uid", JStr "u1")]) = false.
Proof.
  refine (proj2 (render_profile_info_result
                   [ {| uuid := "a"; reply := created_reply;
                        write_granted := true |};
                     {| uuid := "b"; reply := Response 500 None;
                        write_granted := true |} ]
                   [0; 1; 0; 1; 0; 1; 0] first_run _ _)
                (JObj [("uid", JStr "u1")]) _).
  - cbn. discriminate.
  - repeat constructor; intros (body & Hr & _ & Hd); cbn in Hr.
    + injection Hr as <-. vm_compute in Hd. discriminate.
    + discriminate.
  - vm_compute. left. reflexivity.
Defined.

(** C9: the code breaks the claim.  [load_session_info] guards its
    [open] and returns [None] for a file that cannot be read;
    [save_session_info] does not guard its own.  When the file that
    cannot be read cannot be written either (a directory in the place of
    [SESSION_FILE], a file without permissions), the task that is sent a
    session raises [OSError] and leaves the file as it is, where a first
    run saves the session and returns it. *)
Theorem unwritable_session_file_is_fatal :
  (forall (f : file) (g : globals) (a : answers) (body data uid : json),
      malformed f ->
      reply a = Response 200 (Some body) ->
      valid_resp body = Ok body ->
      py_get body "data" (JObj []) = Ok data ->
      py_get data "uid" JNull = Ok uid -> truthy uid = true ->
      let stale := {| glob := g; session_file := Some f |} in
      let first := {| glob := g; session_file := None |} in
      load_session_info stale = (Ok JNull, stale) /\
      fst (uninterrupted (with_write false a) stale) = Raised OSError /\
      session_file (snd (uninterrupted (with_write false a) stale))
      = Some f /\
      fst (uninterrupted (with_write true a) first) = Returned data /\
      session_file (snd (uninterrupted (with_write true a) first))
      = Some (Text (json_dumps data))) /\
  (let a := {| uuid := "uuid"; reply := created_reply;
               write_granted := false |} in
   let stale := {| glob := initial_globals;
                   session_file := Some Unreadable |} in
   fst (load_session_info stale) = Ok JNull /\
   fst (uninterrupted a stale) = Raised OSError /\
   fst (uninterrupted (with_write true a) first_run)
   = Returned (JObj [("uid", JStr "u1")]) /\
   fst (run [0; 0; 0; 0] [Created a] stale) = [Raised OSError]).
Proof.
  split; [|repeat split; reflexivity].
  intros f g a body data uid Hf Hr Hv Hd Hu Ht stale first.
  pose proof (load_malformed f g Hf) as Hload. fold stale in Hload.
  split; [exact Hload|].
  rewrite (accepted_session_is_saved_or_fatal (with_write false a) stale
             body data uid), (accepted_session_is_saved_or_fatal
             (with_write true a) first body data uid);
    try assumption; try reflexivity.
  - cbn. repeat split; reflexivity.
  - now rewrite Hload.
Qed.

(* ================================================================== *)
(** * Proofs: the supervisor *)
(* ================================================================== *)

Ltac run_sup :=
  cbv beta iota zeta delta
    [bind get lift ret raise modify set_all_proxies set_active_proxies
     set_tasks emit load_proxies task_result];
  cbn [fst snd all_proxies active_proxies tasks next_task trace].

Lemma bind_run {St A B} (m : M St A) (k : A -> M St B) (s : St) :
  bind m k s =
  match m s with
  | (Ok a, s') => k a s'
  | (Raise e, s') => (Raise e, s')
  end.
Proof. reflexivity. Qed.

Lemma mfor_cons {St A} (x : A) (l : list A) (body : A -> M St unit) (s : St) :
  mfor (x :: l) body s =
  match body x s with
  | (Ok _, s') => mfor l body s'
  | (Raise e, s') => (Raise e, s')
  end.
Proof. reflexivity. Qed.

Lemma validate_all_spec (w : world) (l : list string) :
  forall (i : nat) (s : sup),
    validate_all w i l s =
    (Ok tt,
     {| all_proxies := all_proxies s;
        active_proxies := active_proxies s ++ validated_from w i l;
        tasks := tasks s;
        next_task := next_task s;
        trace := trace s ++ map EvValidate l |}).
Proof.
  induction l as [|p l IH]; intros i s.
  - cbn. rewrite !app_nil_r. destruct s; reflexivity.
  - cbn [validate_all validated_from map]. run_sup.
    destruct (is_valid_proxy (ping_get w i p)); run_sup;
      rewrite IH; cbn [all_proxies active_proxies tasks next_task trace];
      rewrite <- !app_assoc; reflexivity.
Qed.

(** [validated_from] is the plain filter of the numbered candidates by
    the answer to their validation request. *)
Lemma validated_from_filter (w : world) (l : list string) :
  forall i,
    validated_from w i l =
    map snd
      (filter (fun ip => is_valid_proxy (ping_get w (fst ip) (snd ip)))
              (combine (seq i (List.length l)) l)).
Proof.
  induction l as [|p l IH]; intros i; [reflexivity|].
  cbn [validated_from List.length seq combine filter fst snd].
  destruct (is_valid_proxy (ping_get w i p)); cbn [map snd];
    now rewrite IH.
Qed.

Lemma validated_from_incl (w : world) (l : list string) :
  forall i, incl (validated_from w i l) l.
Proof.
  induction l as [|p l IH]; intros i; cbn; [apply incl_refl|].
  destruct (is_valid_proxy (ping_get w i p)).
  - apply incl_cons; [now left|]. apply incl_tl, IH.
  - apply incl_tl, IH.
Qed.

Lemma validated_from_length (w : world) (l : list string) :
  forall i, List.length (validated_from w i l) <= List.length l.
Proof.
  induction l as [|p l IH]; intros i; cbn; [lia|].
  destruct (is_valid_proxy (ping_get w i p)); cbn; specialize (IH (S i)); lia.
Qed.

Lemma dict_get_task_absent (d : list (pyobj * nat)) (t : nat) :
  str_keys d -> dict_get pyobj_eqb d (PTask t) = None.
Proof.
  induction d as [|[k v] d IH]; intros H; [reflexivity|].
  cbn. destruct (H k v (or_introl eq_refl)) as [p ->]. cbn.
  apply IH. intros k' t' Hin. apply (H k' t'). now right.
Qed.

Lemma dict_set_str_keys (d : list (pyobj * nat)) (p : string) (t : nat) :
  str_keys d -> str_keys (dict_set pyobj_eqb d (PStr p) t).
Proof.
  induction d as [|[k v] d IH]; intros H k' t' Hin.
  - destruct Hin as [[= <- <-]|[]]. now exists p.
  - cbn in Hin. destruct (pyobj_eqb k (PStr p)).
    + destruct Hin as [[= <- <-]|Hin].
      * apply (H k v). now left.
      * apply (H k' t'). now right.
    + destruct Hin as [[= <- <-]|Hin].
      * apply (H k v). now left.
      * refine (IH _ k' t' Hin).
        intros k2 t2 H2. apply (H k2 t2). now right.
Qed.

Lemma dict_set_nonempty {K V} (eqb : K -> K -> bool)
    (d : list (K * V)) (k : K) (v : V) :
  dict_set eqb d k v <> [].
Proof.
  destruct d as [|[k' v'] d]; cbn; [discriminate|].
  destruct (eqb k' k); discriminate.
Qed.

Lemma start_task_spec (p : string) (s : sup) :
  start_task p s =
  (Ok tt,
   {| all_proxies := all_proxies s;
      active_proxies := active_proxies s;
      tasks := dict_set pyobj_eqb (tasks s) (PStr p) (next_task s);
      next_task := S (next_task s);
      trace := trace s ++ [EvCreateTask (next_task s) p] |}).
Proof. reflexivity. Qed.

(** Starting one task per proxy of [l]: nothing raises, the two proxy
    sequences stay, every key stored is a string, and every event is the
    creation of a task. *)
Lemma mfor_start_task (l : list string) :
  forall s : sup,
    str_keys (tasks s) ->
    fst (mfor l start_task s) = Ok tt /\
    str_keys (tasks (snd (mfor l start_task s))) /\
    all_proxies (snd (mfor l start_task s)) = all_proxies s /\
    active_proxies (snd (mfor l start_task s)) = active_proxies s /\
    (l <> [] -> tasks (snd (mfor l start_task s)) <> []) /\
    (tasks s <> [] -> tasks (snd (mfor l start_task s)) <> []).
Proof.
  induction l as [|p l IH]; intros s Hs.
  - cbn. repeat split; auto.
  - rewrite mfor_cons, start_task_spec.
    match goal with
    | |- context [mfor l start_task ?s1] =>
        destruct (IH s1) as (H1 & H2 & H3 & H4 & H5 & H6)
    end.
    { cbn [tasks]. now apply dict_set_str_keys. }
    cbn [all_proxies active_proxies tasks] in *.
    repeat split; auto; intros _; apply H6, dict_set_nonempty.
Qed.

(** What [startup] leaves when the proxy file is readable and a token is
    given: the candidates untouched in [all_proxies], the validated ones
    in [active_proxies]; with none validated it exits having done nothing
    but validation requests. *)
Lemma startup_spec (w : world) (candidates : list string) :
  proxy_lines w = Some candidates ->
  strip (token_input w) <> EmptyString ->
  all_proxies (snd (startup w initial_sup)) = candidates /\
  active_proxies (snd (startup w initial_sup))
  = validated_from w 0 candidates /\
  (validated_from w 0 candidates = [] ->
   fst (startup w initial_sup) = Raise SystemExit /\
   trace (snd (startup w initial_sup)) = map EvValidate candidates) /\
  (validated_from w 0 candidates <> [] ->
   fst (startup w initial_sup) = Ok tt /\
   str_keys (tasks (snd (startup w initial_sup))) /\
   tasks (snd (startup w initial_sup)) <> []).
Proof.
  intros Hfile Htok. unfold startup. run_sup. rewrite Hfile. run_sup.
  destruct (String.eqb_spec (strip (token_input w)) EmptyString) as [E|_];
    [contradiction|].
  run_sup. rewrite validate_all_spec. run_sup. cbn [app initial_sup].
  destruct (validated_from w 0 candidates) as [|v vs] eqn:Hv.
  - run_sup. repeat split; auto; congruence.
  - match goal with
    | |- context [mfor ?l start_task ?s1] =>
        destruct (mfor_start_task l s1) as (H1 & H2 & H3 & H4 & H5 & _)
    end.
    { intros k t []. }
    cbn [all_proxies active_proxies] in *.
    repeat split; auto; try discriminate.
Qed.

(** The first completed task ends [main]: [tasks[task]] finds no entry,
    whatever the task's outcome was, and both proxy sequences are still
    what they were. *)
Lemma cycle_first_done (outcomes : nat -> result json)
    (t : nat) (done : list nat) (s : sup) :
  str_keys (tasks s) -> tasks s <> [] ->
  fst (cycle (t :: done) outcomes s) = Raise KeyError /\
  active_proxies (snd (cycle (t :: done) outcomes s)) = active_proxies s /\
  all_proxies (snd (cycle (t :: done) outcomes s)) = all_proxies s.
Proof.
  intros Hk Hne. unfold cycle. run_sup.
  destruct (tasks s) as [|kv d] eqn:Hd; [congruence|].
  run_sup. rewrite mfor_cons. unfold handle_done. run_sup.
  rewrite Hd, dict_get_task_absent by assumption.
  run_sup. auto.
Qed.

Lemma main_unfold (w : world) (n : nat) (s : sup) :
  main w n s =
  match startup w s with
  | (Ok _, s') => polling w n 0 s'
  | (Raise e, s') => (Raise e, s')
  end.
Proof. reflexivity. Qed.

(** Every run of [main] that gets past startup stops with [KeyError] in
    its first turn, as soon as [asyncio.wait] reports a completed
    task. *)
Lemma main_stops_at_first_completion
    (w : world) (candidates : list string) (t : nat) (done : list nat)
    (n : nat) :
  proxy_lines w = Some candidates ->
  strip (token_input w) <> EmptyString ->
  validated_from w 0 candidates <> [] ->
  done_at w 0 = t :: done ->
  fst (main w (S n) initial_sup) = Raise KeyError /\
  active_proxies (snd (main w (S n) initial_sup))
  = validated_from w 0 candidates /\
  all_proxies (snd (main w (S n) initial_sup)) = candidates.
Proof.
  intros Hfile Htok Hvalid Hdone.
  destruct (startup_spec w candidates Hfile Htok) as (Hall & Hact & _ & Hok).
  destruct (Hok Hvalid) as (Hfst & Hkeys & Hne).
  rewrite main_unfold.
  destruct (startup w initial_sup) as [[[]|e] s1]; cbn [fst snd] in *;
    [|discriminate].
  cbn [polling]. rewrite !bind_run, Hdone.
  destruct (cycle_first_done (outcome_of w) t done s1 Hkeys Hne)
    as (Hc & Ha & Hb).
  destruct (cycle (t :: done) (outcome_of w) s1) as [[u|e] s2];
    cbn [fst snd] in *; [discriminate|].
  injection Hc as ->. repeat split; congruence.
Qed.

Lemma list_remove_in (p : string) (l : list string) :
  In p l ->
  exists rest, list_remove (PStr p) l = Some rest /\
               S (List.length rest) = List.length l.
Proof.
  induction l as [|y l IH]; intros Hin; [contradiction|].
  cbn [list_remove pyobj_eqb].
  destruct (String.eqb_spec y p) as [->|Hne].
  - exists l. now split.
  - destruct Hin as [->|Hin]; [congruence|].
    destruct (IH Hin) as [rest [-> Hlen]].
    exists (y :: rest). cbn. split; [reflexivity | lia].
Qed.

(** Lines 178-182 on a proxy that is active, with a non-empty
    [all_proxies]. *)
Lemma replace_failed_spec (s : sup) (p b : string) (backlog rest : list string) :
  list_remove (PStr p) (active_proxies s) = Some rest ->
  all_proxies s = b :: backlog ->
  replace_failed (PStr p) s =
  (Ok tt,
   {| all_proxies := backlog;
      active_proxies := rest ++ [b];
      tasks := dict_set pyobj_eqb (tasks s) (PStr b) (next_task s);
      next_task := S (next_task s);
      trace := trace s ++ [EvCreateTask (next_task s) b] |}).
Proof.
  intros Hrm Hall. unfold replace_failed. run_sup.
  rewrite Hrm. run_sup. rewrite Hall. run_sup.
  rewrite start_task_spec. reflexivity.
Qed.

(** C1, as the claim states it, fails: in the scenario of the
    specification the proxies that validated are, after startup, in
    [active_proxies] and still in [all_proxies], the sequence replacements
    are taken from. *)
Lemma pool_replacement_counterexample :
  ~ pool_disjoint (snd (startup scenario initial_sup)).
Proof.
  intros H. apply (H "p1"); vm_compute; auto.
Qed.

(** C1 (amended).  After startup [active_proxies] holds, in order, the
    candidates that validated, and [all_proxies], from whose front
    replacements are taken, still holds every candidate, so that every
    active proxy is in it as well.  The replacement step of lines 178-182,
    run for a proxy that is in [active_proxies] while [all_proxies] is not
    empty, removes the first occurrence of that proxy, pops the front of
    [all_proxies] and appends it: exactly one proxy is promoted and
    [len(active_proxies)] is unchanged. *)
Theorem pool_replacement :
  (forall (w : world) (candidates : list string),
      proxy_lines w = Some candidates ->
      strip (token_input w) <> EmptyString ->
      all_proxies (snd (startup w initial_sup)) = candidates /\
      active_proxies (snd (startup w initial_sup))
      = validated_from w 0 candidates /\
      incl (active_proxies (snd (startup w initial_sup)))
           (all_proxies (snd (startup w initial_sup))))
  /\
  (forall (s : sup) (p b : string) (backlog : list string),
      In p (active_proxies s) ->
      all_proxies s = b :: backlog ->
      fst (replace_failed (PStr p) s) = Ok tt /\
      all_proxies (snd (replace_failed (PStr p) s)) = backlog /\
      (exists rest,
          list_remove (PStr p) (active_proxies s) = Some rest /\
          active_proxies (snd (replace_failed (PStr p) s)) = rest ++ [b]) /\
      List.length (active_proxies (snd (replace_failed (PStr p) s)))
      = List.length (active_proxies s)).
Proof.
  split.
  - intros w candidates Hfile Htok.
    destruct (startup_spec w candidates Hfile Htok) as (Hall & Hact & _).
    repeat split; try assumption.
    rewrite Hall, Hact. apply validated_from_incl.
  - intros s p b backlog Hin Hall.
    destruct (list_remove_in p (active_proxies s) Hin) as [rest [Hrm Hlen]].
    rewrite (replace_failed_spec s p b backlog rest Hrm Hall).
    cbn [fst snd all_proxies active_proxies].
    repeat split.
    + exists rest. now split.
    + rewrite List.length_app. cbn. lia.
Qed.

(** The amended C1 in the scenario, and on the replacement of ["p1"] by
    the front of a two-element [all_proxies]. *)
Lemma pool_replacement_witness :
  incl (active_proxies (snd (startup scenario initial_sup)))
       (all_proxies (snd (startup scenario initial_sup)))
  /\ List.length
       (active_proxies
          (snd (replace_failed (PStr "p1")
                  {| all_proxies := ["p4"; "p5"];
                     active_proxies := ["p1"; "p3"];
                     tasks := [(PStr "p1", 0); (PStr "p3", 1)];
                     next_task := 2;
                     trace := [] |}))) = 2.
Proof.
  destruct pool_replacement as [Hstart Hstep]. split.
  - apply (Hstart scenario ["p1"; "p2"; "p3"]).
    + reflexivity.
    + vm_compute. discriminate.
  - apply (Hstep {| all_proxies := ["p4"; "p5"];
                    active_proxies := ["p1"; "p3"];
                    tasks := [(PStr "p1", 0); (PStr "p3", 1)];
                    next_task := 2;
                    trace := [] |} "p1" "p4" ["p5"]).
    + now left.
    + reflexivity.
Defined.

(** C5.  When the proxy file is readable and a token is given,
    [active_proxies] after startup is the list of exactly those candidates
    whose validation answered true, in the order of the input; with at
    least one such candidate startup completes and the list is not empty
    and no longer than the validated ones; with none, [main] ends in
    [SystemExit] for any number of turns observed, having done nothing but
    validation requests: no task is created and nothing is waited for. *)
Theorem startup_filtering (w : world) (candidates : list string) :
  proxy_lines w = Some candidates ->
  strip (token_input w) <> EmptyString ->
  let valid := validated_from w 0 candidates in
  active_proxies (snd (startup w initial_sup)) = valid /\
  (valid <> [] ->
   fst (startup w initial_sup) = Ok tt /\
   0 < List.length (active_proxies (snd (startup w initial_sup)))
     <= List.length valid) /\
  (valid = [] ->
   forall n : nat,
     fst (main w n initial_sup) = Raise SystemExit /\
     Forall is_validation (trace (snd (main w n initial_sup)))).
Proof.
  intros Hfile Htok valid. subst valid.
  destruct (startup_spec w candidates Hfile Htok) as (Hall & Hact & Hnone & Hsome).
  split; [assumption|]. split.
  - intros Hv. destruct (Hsome Hv) as (Hok & _). split; [assumption|].
    rewrite Hact. destruct (validated_from w 0 candidates); [congruence|].
    cbn. lia.
  - intros Hv n. destruct (Hnone Hv) as (Hexit & Htrace).
    rewrite main_unfold.
    destruct (startup w initial_sup) as [[u|e] s1]; cbn [fst snd] in *;
      [discriminate|].
    split; [assumption|]. rewrite Htrace.
    apply Forall_forall. intros e' Hin. apply in_map_iff in Hin.
    destruct Hin as [q [<- _]]. exact I.
Qed.

(** C5 in the scenario of the specification: the second of three
    candidates fails validation. *)
Lemma startup_filtering_witness :
  active_proxies (snd (startup scenario initial_sup)) = ["p1"; "p3"].
Proof.
  apply (startup_filtering scenario ["p1"; "p2"; "p3"]).
  - reflexivity.
  - vm_compute. discriminate.
Defined.

(** C2: the code breaks the claim.  Every create-session reply that
    [valid_resp] refuses, such as the rejected one, and likewise a network
    failure, leaves [render_profile_info] as an exception, where the same
    reply makes [handle_ping] return [False];
    [task.result()] would raise that exception again in the control loop;
    and the control loop itself ends in its first turn, at [tasks[task]],
    with [KeyError]. *)
Theorem task_failure_ends_main :
  (forall (fresh : string) (body : json) (e : exc),
      valid_resp body = Raise e ->
      fst (render_profile_info fresh (Response 200 (Some body)) first_run)
      = Raise e) /\
  fst (render_profile_info "uuid" rejected_reply first_run)
  = Raise invalid_response /\
  fst (render_profile_info "uuid" NetError first_run) = Raise ClientError /\
  fst (handle_ping rejected_reply first_run) = Ok false /\
  task_result (outcome_of scenario 0) = Raise invalid_response /\
  forall n : nat, fst (main scenario (S n) initial_sup) = Raise KeyError.
Proof.
  split.
  { intros fresh body e He.
    destruct (establish_failure_raises fresh (Response 200 (Some body))
                first_run eq_refl) as (_ & _ & H).
    apply (H body e eq_refl He). }
  split; [reflexivity|]. split; [reflexivity|]. split; [reflexivity|].
  split; [reflexivity|].
  intros n.
  apply (main_stops_at_first_completion scenario ["p1"; "p2"; "p3"] 0 [] n);
    try reflexivity; vm_compute; discriminate.
Qed.

(** Lines 178-182 with nothing left in [all_proxies]: the failed proxy is
    removed and [pop(0)] then raises. *)
Lemma replace_failed_exhausted (s : sup) (p : string) (rest : list string) :
  list_remove (PStr p) (active_proxies s) = Some rest ->
  all_proxies s = [] ->
  fst (replace_failed (PStr p) s) = Raise IndexError /\
  active_proxies (snd (replace_failed (PStr p) s)) = rest.
Proof.
  intros Hrm Hall. unfold replace_failed. run_sup.
  rewrite Hrm. run_sup. rewrite Hall. split; reflexivity.
Qed.

(** C3: the code breaks the claim.  In the scenario of the specification
    the failure of the task of ["p1"] ends [main] with [KeyError] and
    leaves [active_proxies] at its two entries; the replacement step has
    no branch for an empty [all_proxies], where it removes the failed
    proxy and then raises [IndexError] at [pop(0)]; and a turn that
    starts with no task at all raises in [asyncio.wait]. *)
Theorem exhausted_backlog_crashes :
  (forall n : nat,
      fst (main scenario (S n) initial_sup) = Raise KeyError /\
      active_proxies (snd (main scenario (S n) initial_sup)) = ["p1"; "p3"])
  /\ (forall (s : sup) (p : string),
        In p (active_proxies s) -> all_proxies s = [] ->
        fst (replace_failed (PStr p) s) = Raise IndexError)
  /\ (fst (replace_failed (PStr "p1") exhausted) = Raise IndexError /\
      active_proxies (snd (replace_failed (PStr "p1") exhausted)) = ["p3"])
  /\ (forall (done : list nat) (outcomes : nat -> result json) (s : sup),
        tasks s = [] ->
        exists msg, fst (cycle done outcomes s) = Raise (ValueError msg)).
Proof.
  split; [|split; [|split]].
  - intros n.
    destruct (main_stops_at_first_completion
                scenario ["p1"; "p2"; "p3"] 0 [] n) as (H1 & H2 & _);
      try reflexivity; try (vm_compute; discriminate).
    split; [assumption|]. rewrite H2. reflexivity.
  - intros s p Hin Hall.
    destruct (list_remove_in p (active_proxies s) Hin) as [rest [Hrm _]].
    apply (replace_failed_exhausted s p rest Hrm Hall).
  - split; reflexivity.
  - intros done outcomes s Hs. unfold cycle. run_sup. rewrite Hs.
    eexists. reflexivity.
Qed.

(* ================================================================== *)
(** * Proofs: the codec reads back what it writes *)
(* ================================================================== *)

Module JsonFacts.
Import Json.

(** ** Strings *)

Lemma scan_escape_char (c : ascii) (rest : list ascii) :
  scan_string (escape_char c ++ rest) = push c (scan_string rest).
Proof.
  destruct c as [[] [] [] [] [] [] [] []]; reflexivity.
Qed.

Lemma scan_escape (s : string) (rest : list ascii) :
  scan_string (escape s ++ dquote :: rest) = Some (s, rest).
Proof.
  induction s as [|c s IH]; [reflexivity|].
  cbn [escape]. rewrite <- app_assoc, scan_escape_char, IH. reflexivity.
Qed.

(** ** Integers *)

Lemma digit_char (c : ascii) :
  is_digit c = true ->
  is_ws c = false /\
  (c =? dquote)%char = false /\ (c =? "{")%char = false /\
  (c =? "[")%char = false /\ (c =? "]")%char = false /\
  (c =? "}")%char = false /\ (c =? "-")%char = false /\
  ("n" =? c)%char = false /\ ("t" =? c)%char = false /\
  ("f" =? c)%char = false.
Proof.
  destruct c as [[] [] [] [] [] [] [] []]; cbv; intros H;
    try discriminate H; repeat split.
Qed.

Lemma digits_of_uint (d : Decimal.uint) :
  Forall (fun c => is_digit c = true)
         (list_ascii_of_string (NilEmpty.string_of_uint d)).
Proof.
  induction d; cbn; constructor; try reflexivity; assumption.
Qed.

Lemma span_digits_app (ds rest : list ascii) :
  Forall (fun c => is_digit c = true) ds ->
  no_digit_ahead rest ->
  span_digits (ds ++ rest) = (ds, rest).
Proof.
  intros Hds Hrest. induction Hds as [|c ds Hc _ IH]; cbn.
  - destruct rest as [|c rest]; [reflexivity|].
    cbn in Hrest. cbn. rewrite Hrest. reflexivity.
  - rewrite Hc, IH. reflexivity.
Qed.

Lemma delimited_after_int (rest : list ascii) :
  delimited rest -> no_digit_ahead rest /\ float_mark rest = false.
Proof.
  destruct rest as [|c rest]; cbn; [auto|].
  intros [-> | [-> | ->]]; split; reflexivity.
Qed.

Lemma delimited_skip_ws (rest : list ascii) :
  delimited rest -> skip_ws rest = rest.
Proof.
  destruct rest as [|c rest]; cbn; [auto|].
  intros [-> | [-> | ->]]; reflexivity.
Qed.

Lemma to_uint_no_leading_zero (p : positive) (d : Decimal.uint) :
  Pos.to_uint p <> Decimal.D0 d.
Proof.
  intros E.
  pose proof (DecimalPos.Unsigned.to_of (Pos.to_uint p)) as H.
  rewrite DecimalPos.Unsigned.of_to in H. cbn [N.to_uint] in H.
  rewrite E, DecimalFacts.unorm_D0 in H.
  destruct (Decimal.nzhead d) eqn:Hd;
    [ unfold Decimal.unorm in H; rewrite Hd in H; injection H as ->;
      apply (DecimalPos.Unsigned.to_uint_nonzero p); exact E
    | rewrite DecimalFacts.unorm_nzhead in H by (rewrite Hd; discriminate);
      symmetry in H; revert H; apply DecimalFacts.nzhead_nonzero .. ].
Qed.

(** The digits of a positive number: all digits, at least one, the
    first not a zero, and read back as the number. *)
Lemma pos_digits (p : positive) :
  exists c ds,
    list_ascii_of_string (NilZero.string_of_uint (Pos.to_uint p)) = c :: ds /\
    Forall (fun c => is_digit c = true) (c :: ds) /\
    (c =? "0")%char = false /\
    NilEmpty.uint_of_string (string_of_list_ascii (c :: ds))
    = Some (Pos.to_uint p).
Proof.
  pose proof (DecimalPos.Unsigned.to_uint_nonnil p) as Hnil.
  pose proof (to_uint_no_leading_zero p) as Hzero.
  pose proof (digits_of_uint (Pos.to_uint p)) as Hdig.
  pose proof (NilEmpty.usu (Pos.to_uint p)) as Husu.
  assert (Hs : NilZero.string_of_uint (Pos.to_uint p)
               = NilEmpty.string_of_uint (Pos.to_uint p)).
  { unfold NilZero.string_of_uint. destruct (Pos.to_uint p); congruence. }
  rewrite Hs.
  destruct (Pos.to_uint p) as [|d|d|d|d|d|d|d|d|d|d] eqn:E;
    [congruence | exfalso; apply (Hzero d); reflexivity | ..];
    cbn [NilEmpty.string_of_uint list_ascii_of_string] in *;
    eexists; eexists; (split; [reflexivity|]);
    (split; [exact Hdig|]); (split; [reflexivity|]);
    cbn [string_of_list_ascii]; rewrite string_of_list_ascii_of_string;
    exact Husu.
Qed.

Lemma scan_int_digits (c : ascii) (ds rest : list ascii) (u : Decimal.uint) :
  Forall (fun c => is_digit c = true) (c :: ds) ->
  ((c =? "0")%char && match ds with [] => false | _ => true end) = false ->
  NilEmpty.uint_of_string (string_of_list_ascii (c :: ds)) = Some u ->
  delimited rest ->
  scan_int ((c :: ds) ++ rest) = Some (Z.of_N (N.of_uint u), rest) /\
  scan_int ("-"%char :: (c :: ds) ++ rest)
  = Some ((- Z.of_N (N.of_uint u))%Z, rest).
Proof.
  intros Hdig Hlead Hu Hrest.
  destruct (delimited_after_int rest Hrest) as [Hnd Hfm].
  pose proof (span_digits_app (c :: ds) rest Hdig Hnd) as Hspan.
  assert (Hc : is_digit c = true) by (inversion Hdig; assumption).
  destruct (digit_char c Hc) as (_ & _ & _ & _ & _ & _ & Hminus & _).
  unfold scan_int. split.
  - cbn [app]. rewrite Hminus. cbn [app] in Hspan. rewrite Hspan.
    rewrite Hlead, Hfm, Hu. reflexivity.
  - cbn [Ascii.eqb Bool.eqb]. rewrite Hspan, Hlead, Hfm, Hu. reflexivity.
Qed.

Lemma scan_int_print (z : Z) (rest : list ascii) :
  delimited rest -> scan_int (print_int z ++ rest) = Some (z, rest).
Proof.
  intros Hrest. unfold print_int. destruct z as [|p|p].
  - destruct (scan_int_digits "0" [] rest (Decimal.D0 Decimal.Nil))
      as [H _]; auto; repeat constructor.
  - cbn [Z.to_int NilZero.string_of_int].
    destruct (pos_digits p) as (c & ds & -> & Hdig & Hc & Hu).
    destruct (scan_int_digits c ds rest (Pos.to_uint p)) as [H _]; auto.
    { rewrite Hc. reflexivity. }
    rewrite H. unfold N.of_uint.
    rewrite DecimalPos.Unsigned.of_to. reflexivity.
  - cbn [Z.to_int NilZero.string_of_int list_ascii_of_string].
    destruct (pos_digits p) as (c & ds & -> & Hdig & Hc & Hu).
    destruct (scan_int_digits c ds rest (Pos.to_uint p)) as [_ H]; auto.
    { rewrite Hc. reflexivity. }
    cbn [app]. cbn [app] in H. rewrite H. unfold N.of_uint.
    rewrite DecimalPos.Unsigned.of_to. reflexivity.
Qed.

(** ** Induction on values, through lists and dictionaries *)

Section JsonInduction.
Variable P : json -> Prop.
Hypothesis HNull : P JNull.
Hypothesis HBool : forall b, P (JBool b).
Hypothesis HInt : forall z, P (JInt z).
Hypothesis HStr : forall s, P (JStr s).
Hypothesis HList : forall l, Forall P l -> P (JList l).
Hypothesis HObj :
  forall d, Forall (fun kv => P (snd kv)) d -> P (JObj d).

Lemma json_induction (v : json) : P v.
Proof.
  revert v. fix IH 1. intros [| b | z | s | l | d].
  - exact HNull.
  - apply HBool.
  - apply HInt.
  - apply HStr.
  - apply HList. induction l as [|x l IHl]; constructor.
    + apply IH.
    + exact IHl.
  - apply HObj. induction d as [|kv d IHd]; constructor.
    + apply IH.
    + exact IHd.
Qed.
End JsonInduction.

Lemma print_JList (l : list json) :
  print (JList l) = "["%char :: print_elems l.
Proof. reflexivity. Qed.

Lemma print_JObj (d : list (string * json)) :
  print (JObj d) = "{"%char :: print_members d.
Proof. reflexivity. Qed.

Lemma cost_JList (l : list json) : cost (JList l) = S (cost_elems l).
Proof. reflexivity. Qed.

Lemma cost_JObj (d : list (string * json)) :
  cost (JObj d) = S (cost_members d).
Proof. reflexivity. Qed.

Lemma unique_keys_JList (l : list json) :
  unique_keys (JList l) <-> Forall unique_keys l.
Proof.
  cbn [unique_keys].
  induction l as [|x l IH]; [split; auto|].
  split.
  - intros [Hx Hl]. constructor; [assumption | now apply IH].
  - intros H. inversion H; subst. split; [assumption | now apply IH].
Qed.

Lemma unique_keys_JObj (d : list (string * json)) :
  unique_keys (JObj d) <->
  NoDup (map fst d) /\ Forall (fun kv => unique_keys (snd kv)) d.
Proof.
  cbn [unique_keys].
  assert (H : (fix all (d : list (string * json)) : Prop :=
                 match d with
                 | [] => True
                 | (_, x) :: d' => unique_keys x /\ all d'
                 end) d <-> Forall (fun kv => unique_keys (snd kv)) d).
  { induction d as [|[k x] d IH]; [split; auto|].
    split.
    - intros [Hx Hd]. constructor; [assumption | now apply IH].
    - intros H. inversion H; subst. split; [assumption | now apply IH]. }
  rewrite H. reflexivity.
Qed.

(** ** The first character of a printed value *)

Lemma print_int_head (z : Z) :
  exists c ds, print_int z = c :: ds /\
               (is_digit c = true \/ c = "-"%char).
Proof.
  unfold print_int. destruct z as [|p|p].
  - exists "0"%char, []. split; [reflexivity | now left].
  - cbn [Z.to_int NilZero.string_of_int].
    destruct (pos_digits p) as (c & ds & -> & Hdig & _).
    exists c, ds. split; [reflexivity|]. left. now inversion Hdig.
  - cbn [Z.to_int NilZero.string_of_int list_ascii_of_string].
    eexists; eexists. split; [reflexivity | now right].
Qed.

Lemma print_head (v : json) (rest : list ascii) :
  exists c r, print v ++ rest = c :: r /\
              is_ws c = false /\
              (c =? "]")%char = false /\ (c =? "}")%char = false.
Proof.
  destruct v as [| [|] | z | s | l | d];
    try (eexists; eexists; split; [reflexivity | repeat split]).
  destruct (print_int_head z) as (c & ds & E & [Hc | ->]).
  - destruct (digit_char c Hc) as (H1 & _ & _ & _ & H2 & H3 & _).
    exists c, (ds ++ rest). cbn [print]. rewrite E. repeat split; assumption.
  - exists "-"%char, (ds ++ rest). cbn [print]. rewrite E. repeat split.
Qed.

Lemma skip_ws_print (v : json) (rest : list ascii) :
  skip_ws (print v ++ rest) = print v ++ rest.
Proof.
  destruct (print_head v rest) as (c & r & -> & Hws & _).
  cbn. rewrite Hws. reflexivity.
Qed.

Lemma skip_ws_elems (y : json) (l : list json) (rest : list ascii) :
  skip_ws (print_elems (y :: l) ++ rest) = print_elems (y :: l) ++ rest.
Proof.
  cbn [print_elems]. rewrite <- app_assoc. apply skip_ws_print.
Qed.

Lemma skip_ws_members (k : string) (x : json) (d : list (string * json))
    (rest : list ascii) :
  skip_ws (print_members ((k, x) :: d) ++ rest)
  = print_members ((k, x) :: d) ++ rest.
Proof. reflexivity. Qed.

(** ** One step of each of the three readers *)

Lemma parse_elems_eq (fuel : nat) (s : list ascii) :
  parse_elems (S fuel) s =
  match parse_value fuel s with
  | None => None
  | Some (v, r) =>
      match skip_ws r with
      | [] => None
      | c :: r1 =>
          if (c =? "]")%char then Some ([v], r1)
          else if (c =? ",")%char then
            match parse_elems fuel (skip_ws r1) with
            | Some (vs, r2) => Some (v :: vs, r2)
            | None => None
            end
          else None
      end
  end.
Proof. reflexivity. Qed.

Lemma parse_members_eq (fuel : nat) (s1 : list ascii) :
  parse_members (S fuel) (dquote :: s1) =
  match scan_string s1 with
  | None => None
  | Some (key, r1) =>
      match skip_ws r1 with
      | [] => None
      | c :: r2 =>
          if negb (c =? ":")%char then None
          else
            match parse_value fuel (skip_ws r2) with
            | None => None
            | Some (v, r3) =>
                match skip_ws r3 with
                | [] => None
                | c3 :: r4 =>
                    if (c3 =? "}")%char then Some ([(key, v)], r4)
                    else if (c3 =? ",")%char then
                      match parse_members fuel (skip_ws r4) with
                      | Some (ps, r5) => Some ((key, v) :: ps, r5)
                      | None => None
                      end
                    else None
                end
            end
      end
  end.
Proof. reflexivity. Qed.

Lemma parse_list_eq (fuel : nat) (s1 : list ascii) :
  parse_value (S fuel) ("["%char :: s1) =
  match skip_ws s1 with
  | [] => None
  | c2 :: r2 =>
      if (c2 =? "]")%char then Some (JList [], r2)
      else
        match parse_elems fuel (c2 :: r2) with
        | Some (vs, r) => Some (JList vs, r)
        | None => None
        end
  end.
Proof. reflexivity. Qed.

Lemma parse_dict_eq (fuel : nat) (s1 : list ascii) :
  parse_value (S fuel) ("{"%char :: s1) =
  match skip_ws s1 with
  | [] => None
  | c2 :: r2 =>
      if (c2 =? "}")%char then Some (JObj [], r2)
      else
        match parse_members fuel (c2 :: r2) with
        | Some (ps, r) => Some (JObj (dict_of_pairs ps), r)
        | None => None
        end
  end.
Proof. reflexivity. Qed.

(** ** Lists *)

Lemma parse_elems_print (l : list json) :
  Forall reads_back l -> Forall unique_keys l -> l <> [] ->
  forall (fuel : nat) (rest : list ascii),
    cost_elems l <= fuel -> delimited rest ->
    parse_elems fuel (print_elems l ++ rest) = Some (l, rest).
Proof.
  induction l as [|x l IH]; intros HP HU Hne fuel rest Hfuel Hrest;
    [congruence|].
  inversion HP as [|? ? Hx HPl]; subst.
  inversion HU as [|? ? Ux Ul]; subst.
  cbn [cost_elems] in Hfuel.
  destruct fuel as [|fuel]; [lia|].
  rewrite parse_elems_eq. cbn [print_elems]. rewrite <- app_assoc.
  destruct l as [|y l].
  - rewrite (Hx Ux fuel) by (lia || (cbn; auto)). reflexivity.
  - rewrite (Hx Ux fuel) by (lia || (cbn; auto)).
    cbn [sep_item app skip_ws is_ws Ascii.eqb Bool.eqb orb].
    rewrite skip_ws_elems.
    rewrite IH; auto; [discriminate | lia].
Qed.

(** ** Dictionaries *)

Lemma dict_set_fresh (acc : list (string * json)) (k : string) (v : json) :
  ~ In k (map fst acc) ->
  dict_set String.eqb acc k v = acc ++ [(k, v)].
Proof.
  induction acc as [|[k' v'] acc IH]; intros Hk; [reflexivity|].
  cbn [dict_set app]. destruct (String.eqb_spec k' k) as [->|Hne].
  - exfalso. apply Hk. now left.
  - rewrite IH; [reflexivity|]. intros Hin. apply Hk. now right.
Qed.

Lemma dict_of_pairs_fresh (ps : list (string * json)) :
  forall acc : list (string * json),
    NoDup (map fst ps) ->
    (forall k, In k (map fst ps) -> ~ In k (map fst acc)) ->
    fold_left (fun d kv => dict_set String.eqb d (fst kv) (snd kv)) ps acc
    = acc ++ ps.
Proof.
  induction ps as [|[k v] ps IH]; intros acc Hnd Hfresh.
  - cbn. now rewrite app_nil_r.
  - cbn [fold_left fst snd]. inversion Hnd as [|? ? Hk Hps]; subst.
    rewrite dict_set_fresh by (apply Hfresh; now left).
    rewrite IH; [now rewrite <- app_assoc | assumption|].
    intros k' Hin. rewrite map_app, in_app_iff. intros [Hacc | [<- | []]].
    + apply (Hfresh k'); [now right | assumption].
    + contradiction.
Qed.

Lemma dict_of_pairs_unique (d : list (string * json)) :
  NoDup (map fst d) -> dict_of_pairs d = d.
Proof.
  intros Hnd. unfold dict_of_pairs.
  rewrite dict_of_pairs_fresh; auto.
Qed.

Lemma parse_members_print (d : list (string * json)) :
  Forall (fun kv => reads_back (snd kv)) d ->
  Forall (fun kv => unique_keys (snd kv)) d -> d <> [] ->
  forall (fuel : nat) (rest : list ascii),
    cost_members d <= fuel -> delimited rest ->
    parse_members fuel (print_members d ++ rest) = Some (d, rest).
Proof.
  induction d as [|[k x] d IH]; intros HP HU Hne fuel rest Hfuel Hrest;
    [congruence|].
  inversion HP as [|? ? Hx HPd]; subst.
  inversion HU as [|? ? Ux Ud]; subst.
  cbn [snd] in Hx, Ux. cbn [cost_members] in Hfuel.
  destruct fuel as [|fuel]; [lia|].
  cbn [print_members]. unfold print_string, sep_key.
  repeat (rewrite <- app_assoc || cbn [app]).
  rewrite parse_members_eq, scan_escape.
  cbn [skip_ws is_ws Ascii.eqb Bool.eqb orb negb andb].
  rewrite skip_ws_print.
  destruct d as [|[k' y] d].
  - rewrite (Hx Ux fuel) by (lia || (cbn; auto)). reflexivity.
  - rewrite (Hx Ux fuel) by (lia || (cbn; auto)).
    cbn [sep_item app skip_ws is_ws Ascii.eqb Bool.eqb orb].
    rewrite skip_ws_members.
    rewrite IH; auto; [discriminate | lia].
Qed.

(** ** Every value *)

Lemma print_reads_back (v : json) : reads_back v.
Proof.
  induction v as [| b | z | s | l IHl | d IHd] using json_induction;
    intros HU fuel rest Hfuel Hrest;
    (destruct fuel as [|fuel]; [cbn in Hfuel; lia|]).
  - reflexivity.
  - destruct b; reflexivity.
  - cbn [print].
    pose proof (scan_int_print z rest Hrest) as Hscan.
    destruct (print_int_head z) as (c & ds & E & Hc).
    rewrite E in *. cbn [app] in *.
    assert (Hc' : (c =? dquote)%char = false /\ (c =? "{")%char = false /\
                  (c =? "[")%char = false /\ ("n" =? c)%char = false /\
                  ("t" =? c)%char = false /\ ("f" =? c)%char = false).
    { destruct Hc as [Hc | ->]; [|repeat split].
      destruct (digit_char c Hc) as (_ & H1 & H2 & H3 & _ & _ & _ & H4 & H5 & H6).
      repeat split; assumption. }
    destruct Hc' as (H1 & H2 & H3 & H4 & H5 & H6).
    cbn [parse_value]. rewrite H1, H2, H3.
    unfold scan_atom. cbn [list_ascii_of_string starts_with].
    rewrite H4, H5, H6, Hscan. reflexivity.
  - cbn [print]. unfold print_string. cbn [parse_value app].
    replace (dquote =? dquote)%char with true by reflexivity.
    rewrite <- app_assoc. cbn [app]. rewrite scan_escape. reflexivity.
  - rewrite print_JList. rewrite cost_JList in Hfuel.
    apply unique_keys_JList in HU.
    cbn [app]. rewrite parse_list_eq.
    destruct l as [|x l]; [reflexivity|].
    rewrite skip_ws_elems.
    destruct (print_head x (match l with
                            | [] => ["]"%char]
                            | _ :: _ => sep_item ++ print_elems l
                            end ++ rest)) as (c & r & E & _ & Hc & _).
    assert (E' : print_elems (x :: l) ++ rest = c :: r).
    { cbn [print_elems]. rewrite <- app_assoc. exact E. }
    rewrite E', Hc, <- E'.
    rewrite parse_elems_print; auto; [discriminate | lia].
  - rewrite print_JObj. rewrite cost_JObj in Hfuel.
    apply unique_keys_JObj in HU. destruct HU as [Hnd HU].
    cbn [app]. rewrite parse_dict_eq.
    destruct d as [|[k x] d]; [reflexivity|].
    rewrite skip_ws_members.
    assert (E : exists r, print_members ((k, x) :: d) ++ rest = dquote :: r)
      by (eexists; reflexivity).
    destruct E as [r E]. rewrite E.
    replace (dquote =? "}")%char with false by reflexivity.
    rewrite <- E.
    rewrite parse_members_print; auto; [|discriminate | lia].
    rewrite dict_of_pairs_unique by assumption. reflexivity.
Qed.

(** ** The fuel [loads] provides is enough *)

Lemma cost_elems_le (l : list json) :
  Forall (fun x => cost x <= List.length (print x)) l ->
  cost_elems l <= List.length (print_elems l).
Proof.
  induction l as [|x l IH]; intros H; [cbn; lia|].
  inversion H as [|? ? Hx Hl]; subst. specialize (IH Hl).
  cbn [cost_elems print_elems]. rewrite length_app.
  destruct l as [|y l]; [cbn; lia|].
  unfold sep_item. rewrite length_app. cbn [List.length].
  cbn [cost_elems] in *. lia.
Qed.

Lemma cost_members_le (d : list (string * json)) :
  Forall (fun kv => cost (snd kv) <= List.length (print (snd kv))) d ->
  cost_members d <= List.length (print_members d).
Proof.
  induction d as [|[k x] d IH]; intros H; [cbn; lia|].
  inversion H as [|? ? Hx Hd]; subst. specialize (IH Hd). cbn [snd] in Hx.
  cbn [cost_members print_members]. rewrite !length_app.
  destruct d as [|[k' y] d]; [cbn; lia|].
  unfold sep_item. rewrite length_app. cbn [List.length].
  cbn [cost_members] in *. lia.
Qed.

Lemma cost_le_length (v : json) : cost v <= List.length (print v).
Proof.
  induction v as [| b | z | s | l IHl | d IHd] using json_induction.
  - cbn. lia.
  - destruct b; cbn; lia.
  - cbn [cost print]. destruct (print_int_head z) as (c & ds & -> & _).
    cbn. lia.
  - cbn [cost print]. unfold print_string. cbn. lia.
  - rewrite cost_JList, print_JList. cbn [List.length].
    apply le_n_S, cost_elems_le, IHl.
  - rewrite cost_JObj, print_JObj. cbn [List.length].
    apply le_n_S, cost_members_le, IHd.
Qed.

(** [json.load] gives back what [json.dump] was given, for every value
    whose dictionaries have pairwise different keys. *)
Lemma loads_dumps (v : json) :
  unique_keys v -> loads (dumps v) = Some v.
Proof.
  intros HU. unfold loads, dumps.
  rewrite list_ascii_of_string_of_list_ascii.
  pose proof (skip_ws_print v []) as Hws.
  pose proof (print_reads_back v HU (S (List.length (print v))) []) as Hrb.
  rewrite app_nil_r in Hws, Hrb.
  rewrite Hws, Hrb; [reflexivity| |exact I].
  pose proof (cost_le_length v). lia.
Qed.
End JsonFacts.

(* ================================================================== *)
(** * Proofs: what the session file keeps *)
(* ================================================================== *)

Section StoreFacts.
Context {codec : JsonCodec}.

(** Saving a [dict] and loading it again, for any codec that reads the
    record back from its own text. *)
Lemma save_then_load (record : json) (s : env) :
  is_dict record ->
  json_loads (json_dumps record) = Some record ->
  fst (save_session_info record s) = Ok tt /\
  fst (load_session_info (snd (save_session_info record s))) = Ok record.
Proof.
  intros [d ->] Hcodec.
  unfold save_session_info, load_session_info. run_env.
  cbn [py_get]. run_env. rewrite Hcodec. split; reflexivity.
Qed.
End StoreFacts.

(** C8.  For every session record, a [dict] whose dictionaries have
    pairwise different keys, [save_session_info] completes and a
    following [load_session_info] returns that record. *)
Theorem session_store_round_trip (record : json) (s : env) :
  is_dict record ->
  Json.unique_keys record ->
  fst (save_session_info record s) = Ok tt /\
  fst (load_session_info (snd (save_session_info record s))) = Ok record.
Proof.
  intros Hd Hu. apply save_then_load; [assumption|].
  apply JsonFacts.loads_dumps. exact Hu.
Qed.

(** C8 on a record with an account identifier, a device identifier and
    nested account data. *)
Lemma session_store_round_trip_witness :
  let record :=
    JObj [("uid", JStr "u1"); ("browser_id", JStr "b7");
          ("balance", JObj [("points", JInt 1250); ("tier", JNull)]);
          ("tags", JList [JStr "a"; JBool true; JInt (-3)])] in
  fst (load_session_info (snd (save_session_info record first_run)))
  = Ok record.
Proof.
  cbv zeta.
  apply (session_store_round_trip
           (JObj [("uid", JStr "u1"); ("browser_id", JStr "b7");
                  ("balance", JObj [("points", JInt 1250); ("tier", JNull)]);
                  ("tags", JList [JStr "a"; JBool true; JInt (-3)])])
           first_run).
  - eexists. reflexivity.
  - cbn. repeat split; repeat constructor; cbn; intuition discriminate.
Defined.

(** C6: the code breaks the claim.  A first run generates a device
    identifier and creates a session; what it saves is the account data
    of the reply and nothing else, whatever identifier was generated, so
    the record that [load_session_info] returns has no ["browser_id"];
    after a restart the record is adopted and [browser_id], which line
    132 reads from it, is [None]. *)
Theorem generated_device_id_is_lost :
  (forall fresh : string,
      fst (render_profile_info fresh created_reply first_run)
      = Ok (JObj [("uid", JStr "u1")]) /\
      browser_id (glob (snd (render_profile_info fresh created_reply
                               first_run))) = JStr fresh /\
      fst (load_session_info
             (snd (render_profile_info fresh created_reply first_run)))
      = Ok (JObj [("uid", JStr "u1")]))
  /\ py_get (JObj [("uid", JStr "u1")]) "browser_id" JNull = Ok JNull
  /\ (let after := restarted (snd (render_profile_info "uuid-1"
                                     created_reply first_run)) in
      fst (render_profile_info "uuid-2" NetError after)
      = Ok (JObj [("uid", JStr "u1")]) /\
      browser_id (glob (snd (render_profile_info "uuid-2" NetError after)))
      = JNull).
Proof.
  split; [|split].
  - intros fresh. repeat split; reflexivity.
  - reflexivity.
  - split; reflexivity.
Qed.

(* ================================================================== *)
(** * Further properties: the supervisor *)
(* ================================================================== *)

Lemma list_remove_task (t : nat) (l : list string) :
  list_remove (PTask t) l = None.
Proof.
  induction l as [|y l IH]; [reflexivity|]. cbn. now rewrite IH.
Qed.

(** What [tasks[task]] yields is a task, never a proxy string, so the
    replacement step stops at [active_proxies.remove(proxy)] with
    everything as it was. *)
Lemma replace_failed_task (t : nat) (s : sup) :
  exists msg, replace_failed (PTask t) s = (Raise (ValueError msg), s).
Proof.
  unfold replace_failed. run_sup. rewrite list_remove_task.
  eexists. reflexivity.
Qed.

Lemma handle_done_pool (outcomes : nat -> result json) (t : nat) (s : sup) :
  active_proxies (snd (handle_done outcomes t s)) = active_proxies s /\
  all_proxies (snd (handle_done outcomes t s)) = all_proxies s.
Proof.
  unfold handle_done. run_sup.
  destruct (dict_get pyobj_eqb (tasks s) (PTask t)) as [t'|]; [|now split].
  run_sup. destruct (outcomes t) as [r|e]; run_sup; [|now split].
  destruct (is_None r).
  - destruct (replace_failed_task t' s) as [msg ->]. now split.
  - run_sup.
    destruct (dict_pop pyobj_eqb (tasks s) (PTask t)) as [[w d]|];
      run_sup; now split.
Qed.

Lemma rearm_pool (p : string) (s : sup) :
  fst (rearm p s) = Ok tt /\
  active_proxies (snd (rearm p s)) = active_proxies s /\
  all_proxies (snd (rearm p s)) = all_proxies s.
Proof.
  unfold rearm. run_sup.
  destruct (dict_mem pyobj_eqb (tasks s) (PStr p)); run_sup; [now repeat split|].
  rewrite start_task_spec. now repeat split.
Qed.

Lemma mfor_pool {A} (body : A -> M sup unit) :
  (forall x s, active_proxies (snd (body x s)) = active_proxies s /\
               all_proxies (snd (body x s)) = all_proxies s) ->
  forall (l : list A) (s : sup),
    active_proxies (snd (mfor l body s)) = active_proxies s /\
    all_proxies (snd (mfor l body s)) = all_proxies s.
Proof.
  intros Hbody l. induction l as [|x l IH]; intros s; [now split|].
  rewrite mfor_cons. destruct (Hbody x s) as [Ha Hb].
  destruct (body x s) as [[u|e] s1]; cbn [fst snd] in *; [|now split].
  destruct (IH s1) as [Ha' Hb']. split; congruence.
Qed.

Lemma cycle_pool (done : list nat) (outcomes : nat -> result json) (s : sup) :
  active_proxies (snd (cycle done outcomes s)) = active_proxies s /\
  all_proxies (snd (cycle done outcomes s)) = all_proxies s.
Proof.
  unfold cycle. run_sup.
  destruct (tasks s) as [|kv d] eqn:Hd; [now split|].
  run_sup.
  match goal with
  | |- context [mfor done ?b ?s1] =>
      destruct (mfor_pool b (handle_done_pool outcomes) done s1) as [Ha Hb];
      destruct (mfor done b s1) as [[u|e] s2]
  end; cbn [fst snd active_proxies all_proxies] in *; [|now split].
  run_sup.
  assert (Hr : forall x s0,
             active_proxies (snd (rearm x s0)) = active_proxies s0 /\
             all_proxies (snd (rearm x s0)) = all_proxies s0)
    by (intros x s0; apply rearm_pool).
  destruct (mfor_pool rearm Hr (active_proxies s2) s2) as [Ha' Hb'].
  destruct (mfor (active_proxies s2) rearm s2) as [[u'|e'] s3];
    cbn [fst snd active_proxies all_proxies] in *; split; congruence.
Qed.

(** X2.  The polling loop never changes the pool: whatever tasks complete,
    in whatever order and with whatever outcome, and however many turns
    are observed, [active_proxies] and [all_proxies] are after the loop
    what they were before it.  No proxy is ever retired or promoted. *)
Theorem polling_never_changes_the_pool
    (w : world) (n k : nat) (s : sup) :
  active_proxies (snd (polling w n k s)) = active_proxies s /\
  all_proxies (snd (polling w n k s)) = all_proxies s.
Proof.
  revert k s. induction n as [|n IH]; intros k s; [now split|].
  cbn [polling]. rewrite bind_run.
  destruct (cycle_pool (done_at w k) (outcome_of w) s) as [Ha Hb].
  destruct (cycle (done_at w k) (outcome_of w) s) as [[u|e] s1];
    cbn [fst snd] in *; [|now split].
  destruct (IH (S k) s1) as [Ha' Hb']. split; congruence.
Qed.

Lemma cycle_first_done_state (outcomes : nat -> result json)
    (t : nat) (done : list nat) (s : sup) :
  str_keys (tasks s) -> tasks s <> [] ->
  cycle (t :: done) outcomes s =
  (Raise KeyError,
   {| all_proxies := all_proxies s;
      active_proxies := active_proxies s;
      tasks := tasks s;
      next_task := next_task s;
      trace := trace s ++ [EvWait (map snd (tasks s))] |}).
Proof.
  intros Hk Hne. unfold cycle. run_sup.
  destruct (tasks s) as [|kv d] eqn:Hd; [congruence|].
  run_sup. rewrite mfor_cons. unfold handle_done. run_sup.
  rewrite Hd, dict_get_task_absent by assumption.
  run_sup. reflexivity.
Qed.

(** X1.  Every run of [main] that gets past startup ends in the first
    turn of its loop, at the first task [asyncio.wait] reports, with
    [KeyError], whatever that task's outcome: the loop has waited once,
    has tracked no change and has never slept. *)
Theorem main_ends_at_first_completed_task
    (w : world) (candidates : list string) (t : nat) (done : list nat)
    (n : nat) :
  proxy_lines w = Some candidates ->
  strip (token_input w) <> EmptyString ->
  validated_from w 0 candidates <> [] ->
  done_at w 0 = t :: done ->
  fst (main w (S n) initial_sup) = Raise KeyError /\
  tasks (snd (main w (S n) initial_sup))
  = tasks (snd (startup w initial_sup)) /\
  trace (snd (main w (S n) initial_sup))
  = trace (snd (startup w initial_sup))
    ++ [EvWait (map snd (tasks (snd (startup w initial_sup))))].
Proof.
  intros Hfile Htok Hvalid Hdone.
  destruct (startup_spec w candidates Hfile Htok) as (_ & _ & _ & Hok).
  destruct (Hok Hvalid) as (Hfst & Hkeys & Hne).
  rewrite main_unfold.
  destruct (startup w initial_sup) as [[[]|e] s1]; cbn [fst snd] in *;
    [|discriminate].
  cbn [polling]. rewrite bind_run, Hdone.
  rewrite (cycle_first_done_state (outcome_of w) t done s1 Hkeys Hne).
  repeat split.
Qed.

(** X1 in the scenario: the wait on the two tasks is the last event. *)
Lemma main_ends_at_first_completed_task_witness :
  fst (main scenario 5 initial_sup) = Raise KeyError /\
  tasks (snd (main scenario 5 initial_sup))
  = tasks (snd (startup scenario initial_sup)) /\
  trace (snd (main scenario 5 initial_sup))
  = trace (snd (startup scenario initial_sup)) ++ [EvWait [0; 1]].
Proof.
  apply (main_ends_at_first_completed_task scenario ["p1"; "p2"; "p3"]
           0 [] 4).
  - reflexivity.
  - vm_compute. discriminate.
  - vm_compute. discriminate.
  - reflexivity.
Defined.

Lemma lstrip_empty (s : string) :
  lstrip s = EmptyString <-> string_forallb is_space s = true.
Proof.
  induction s as [|c s IH]; [now split|].
  cbn [lstrip string_forallb]. destruct (is_space c); cbn [andb].
  - exact IH.
  - split; discriminate.
Qed.

Lemma lstrip_head (s : string) :
  lstrip s = EmptyString \/
  exists c r, lstrip s = String c r /\ is_space c = false.
Proof.
  induction s as [|c s IH]; [now left|].
  cbn [lstrip]. destruct (is_space c) eqn:Hc; [exact IH|].
  right. now exists c, s.
Qed.

Lemma rstrip_keeps_head (c : ascii) (r : string) :
  is_space c = false -> rstrip (String c r) <> EmptyString.
Proof.
  intros Hc. cbn [rstrip]. destruct (rstrip r); [rewrite Hc|]; discriminate.
Qed.

(** [s.strip()] is empty exactly when [s] consists of whitespace. *)
Lemma strip_empty_iff (s : string) :
  strip s = EmptyString <-> string_forallb is_space s = true.
Proof.
  unfold strip. rewrite <- lstrip_empty.
  destruct (lstrip_head s) as [-> | (c & r & -> & Hc)]; [now split|].
  split; [|discriminate].
  intros H. now apply rstrip_keeps_head in H.
Qed.

Lemma startup_no_file (w : world) :
  proxy_lines w = None ->
  startup w initial_sup = (Raise SystemExit, initial_sup).
Proof.
  intros H. unfold startup. run_sup. rewrite H. reflexivity.
Qed.

Lemma startup_no_token (w : world) (candidates : list string) :
  proxy_lines w = Some candidates ->
  strip (token_input w) = EmptyString ->
  startup w initial_sup =
  (Raise SystemExit,
   {| all_proxies := candidates; active_proxies := []; tasks := [];
      next_task := 0; trace := [] |}).
Proof.
  intros Hf Ht. unfold startup. run_sup. rewrite Hf. run_sup.
  rewrite Ht. reflexivity.
Qed.

(** Startup either completes, with at least one task tracked and all of
    them under string keys, or ends in [SystemExit]. *)
Lemma startup_outcome (w : world) :
  (fst (startup w initial_sup) = Ok tt /\
   str_keys (tasks (snd (startup w initial_sup))) /\
   tasks (snd (startup w initial_sup)) <> [])
  \/ fst (startup w initial_sup) = Raise SystemExit.
Proof.
  destruct (proxy_lines w) as [candidates|] eqn:Hf.
  2:{ right. now rewrite startup_no_file. }
  destruct (String.eqb_spec (strip (token_input w)) EmptyString) as [Ht|Ht].
  { right. now rewrite (startup_no_token w candidates). }
  destruct (startup_spec w candidates Hf Ht) as (_ & _ & Hnone & Hsome).
  destruct (validated_from w 0 candidates) as [|v vs].
  - right. now apply Hnone.
  - left. apply Hsome. discriminate.
Qed.

Lemma mfor_start_task_state (l : list string) :
  forall s : sup,
    fst (mfor l start_task s) = Ok tt /\
    next_task (snd (mfor l start_task s)) = next_task s + List.length l /\
    trace (snd (mfor l start_task s))
    = trace s ++ creations (next_task s) l.
Proof.
  induction l as [|p l IH]; intros s.
  - cbn. rewrite app_nil_r, Nat.add_0_r. now repeat split.
  - rewrite mfor_cons, start_task_spec.
    match goal with
    | |- context [mfor l start_task ?s1] =>
        destruct (IH s1) as (H1 & H2 & H3)
    end.
    rewrite H1, H2, H3. cbn [next_task trace creations List.length].
    rewrite <- app_assoc. repeat split. lia.
Qed.

Lemma creations_not_validation (i : nat) (l : list string) :
  Forall (fun e => is_validation e -> False) (creations i l).
Proof.
  revert i. induction l as [|p l IH]; intros i; constructor; auto.
Qed.

(** X4.  Startup sends exactly one validation request per line of the
    proxy file, in the order of the file and whatever the answers are,
    and only then creates the tasks: one per validated candidate, in
    order, numbered from 0. *)
Theorem startup_events (w : world) (candidates : list string) :
  proxy_lines w = Some candidates ->
  strip (token_input w) <> EmptyString ->
  trace (snd (startup w initial_sup))
  = map EvValidate candidates
    ++ creations 0 (validated_from w 0 candidates) /\
  next_task (snd (startup w initial_sup))
  = List.length (validated_from w 0 candidates).
Proof.
  intros Hf Ht. unfold startup. run_sup. rewrite Hf. run_sup.
  destruct (String.eqb_spec (strip (token_input w)) EmptyString) as [E|_];
    [contradiction|].
  run_sup. rewrite validate_all_spec. run_sup. cbn [app initial_sup].
  destruct (validated_from w 0 candidates) as [|v vs].
  - run_sup. cbn. rewrite app_nil_r. now split.
  - match goal with
    | |- context [mfor ?l start_task ?s1] =>
        destruct (mfor_start_task_state l s1) as (_ & H2 & H3)
    end.
    rewrite H2, H3. cbn [next_task trace]. now split.
Qed.

(** X4 in the scenario: three requests, then two tasks. *)
Lemma startup_events_witness :
  trace (snd (startup scenario initial_sup))
  = [EvValidate "p1"; EvValidate "p2"; EvValidate "p3";
     EvCreateTask 0 "p1"; EvCreateTask 1 "p3"] /\
  next_task (snd (startup scenario initial_sup)) = 2.
Proof.
  apply (startup_events scenario ["p1"; "p2"; "p3"]).
  - reflexivity.
  - vm_compute. discriminate.
Defined.

(** X5.  A token that consists of whitespace only counts as no token:
    [main] ends in [SystemExit] with the proxy list read and nothing else
    done, no validation request sent.  A proxy file that cannot be read
    ends [main] the same way before the token is even asked for. *)
Theorem blank_token_exits (w : world) :
  (forall candidates : list string,
      proxy_lines w = Some candidates ->
      string_forallb is_space (token_input w) = true ->
      forall n : nat,
        main w n initial_sup =
        (Raise SystemExit,
         {| all_proxies := candidates; active_proxies := []; tasks := [];
            next_task := 0; trace := [] |}))
  /\ (proxy_lines w = None ->
      forall n : nat, main w n initial_sup = (Raise SystemExit, initial_sup)).
Proof.
  split.
  - intros candidates Hf Hblank n. apply strip_empty_iff in Hblank.
    rewrite main_unfold, (startup_no_token w candidates Hf Hblank).
    reflexivity.
  - intros Hf n. rewrite main_unfold, (startup_no_file w Hf). reflexivity.
Qed.

(** X5 on a token of two spaces and a tab. *)
Lemma blank_token_exits_witness :
  fst (main {| proxy_lines := Some ["p1"];
               token_input := String " " (String " " (String "009" EmptyString));
               ping_get := fun _ _ => Response 200 None;
               done_at := fun _ => [0];
               outcome_of := fun _ => Ok JNull |} 3 initial_sup)
  = Raise SystemExit.
Proof.
  destruct (blank_token_exits
              {| proxy_lines := Some ["p1"];
                 token_input :=
                   String " " (String " " (String "009" EmptyString));
                 ping_get := fun _ _ => Response 200 None;
                 done_at := fun _ => [0];
                 outcome_of := fun _ => Ok JNull |}) as [H _].
  rewrite (H ["p1"] eq_refl eq_refl 3). reflexivity.
Defined.

(** X3.  How the process ends once a task has completed: an answer to
    the prompt other than Enter ends it before [main] starts; a failed
    startup ends in the [SystemExit] that the entry point catches and
    reports as a termination by the user; and every run that gets past
    startup ends with the [KeyError] of the first turn, which the entry
    point does not catch.  The process is never still polling. *)
Theorem script_endings (confirm : string) (w : world) (n : nat) :
  done_at w 0 <> [] ->
  fst (script confirm w (S n)) =
  if (strip confirm =? EmptyString)%string then
    match fst (startup w initial_sup) with
    | Ok _ => Traceback KeyError
    | Raise _ => TerminatedByUser
    end
  else Declined.
Proof.
  intros Hdone. unfold script, show_warning.
  destruct (strip confirm =? EmptyString)%string; [|reflexivity].
  rewrite main_unfold.
  destruct (startup_outcome w) as [(Hok & Hkeys & Hne) | Hexit].
  - destruct (startup w initial_sup) as [[[]|e] s1]; cbn [fst snd] in *;
      [|discriminate].
    cbn [polling]. rewrite bind_run.
    destruct (done_at w 0) as [|t done]; [congruence|].
    rewrite (cycle_first_done_state (outcome_of w) t done s1 Hkeys Hne).
    reflexivity.
  - destruct (startup w initial_sup) as [[u|e] s1]; cbn [fst snd] in *;
      [discriminate|].
    injection Hexit as ->. reflexivity.
Qed.

(** X3 in the scenario, the prompt answered with Enter. *)
Lemma script_endings_witness :
  fst (script EmptyString scenario 2) = Traceback KeyError.
Proof.
  rewrite (script_endings EmptyString scenario 1); [reflexivity|].
  discriminate.
Defined.

Lemma pyobj_eqb_eq (a b : pyobj) : pyobj_eqb a b = true <-> a = b.
Proof.
  destruct a as [s|i], b as [t|j]; cbn; split; try discriminate.
  - intros H. apply String.eqb_eq in H. now subst.
  - intros [= ->]. apply String.eqb_refl.
  - intros H. apply Nat.eqb_eq in H. now subst.
  - intros [= ->]. apply Nat.eqb_refl.
Qed.

Lemma pyobj_eqb_refl (a : pyobj) : pyobj_eqb a a = true.
Proof. now apply pyobj_eqb_eq. Qed.

Lemma pyobj_eqb_neq (a b : pyobj) : a <> b -> pyobj_eqb a b = false.
Proof.
  intros H. destruct (pyobj_eqb a b) eqn:E; [|reflexivity].
  apply pyobj_eqb_eq in E. contradiction.
Qed.

Lemma tasks_get_set_same (d : list (pyobj * nat)) (k : pyobj) (v : nat) :
  dict_get pyobj_eqb (dict_set pyobj_eqb d k v) k = Some v.
Proof.
  induction d as [|[k' v'] d IH]; cbn.
  - now rewrite pyobj_eqb_refl.
  - destruct (pyobj_eqb k' k) eqn:E; cbn; rewrite E; [reflexivity|exact IH].
Qed.

Lemma tasks_get_set_other (d : list (pyobj * nat)) (k k' : pyobj) (v : nat) :
  k <> k' ->
  dict_get pyobj_eqb (dict_set pyobj_eqb d k v) k' = dict_get pyobj_eqb d k'.
Proof.
  intros Hne. induction d as [|[k0 v0] d IH]; cbn.
  - now rewrite pyobj_eqb_neq.
  - destruct (pyobj_eqb k0 k) eqn:E; cbn.
    + apply pyobj_eqb_eq in E. subst k0.
      now rewrite pyobj_eqb_neq.
    + destruct (pyobj_eqb k0 k'); [reflexivity|exact IH].
Qed.

Lemma tasks_mem_in (d : list (pyobj * nat)) (k : pyobj) :
  dict_mem pyobj_eqb d k = true <-> In k (map fst d).
Proof.
  unfold dict_mem. induction d as [|[k0 v0] d IH]; cbn.
  - split; [discriminate|contradiction].
  - destruct (pyobj_eqb k0 k) eqn:E.
    + apply pyobj_eqb_eq in E. split; auto.
    + rewrite IH. split; [auto|].
      intros [H|H]; [|assumption].
      apply pyobj_eqb_eq in H. congruence.
Qed.

Lemma tasks_set_keys (d : list (pyobj * nat)) (k : pyobj) (v : nat) :
  map fst (dict_set pyobj_eqb d k v)
  = if dict_mem pyobj_eqb d k then map fst d else map fst d ++ [k].
Proof.
  unfold dict_mem. induction d as [|[k0 v0] d IH]; cbn; [reflexivity|].
  destruct (pyobj_eqb k0 k) eqn:E; cbn; [reflexivity|].
  rewrite IH. destruct (dict_get pyobj_eqb d k); reflexivity.
Qed.

Lemma tasks_set_nodup (d : list (pyobj * nat)) (k : pyobj) (v : nat) :
  NoDup (map fst d) -> NoDup (map fst (dict_set pyobj_eqb d k v)).
Proof.
  intros H. rewrite tasks_set_keys.
  destruct (dict_mem pyobj_eqb d k) eqn:E; [assumption|].
  apply NoDup_app; [assumption | repeat constructor; intros [] |].
  intros x Hx [<-|[]]. apply tasks_mem_in in Hx. congruence.
Qed.

(** The keys of [tasks] after one task was started per proxy of [l]. *)
Lemma mfor_start_task_keys (l : list string) :
  forall s : sup,
    (forall k, In k (map fst (tasks (snd (mfor l start_task s)))) <->
               In k (map fst (tasks s)) \/ In k (map PStr l)) /\
    (NoDup (map fst (tasks s)) ->
     NoDup (map fst (tasks (snd (mfor l start_task s))))).
Proof.
  induction l as [|p l IH]; intros s.
  - cbn. split; [intros k; tauto | auto].
  - rewrite mfor_cons, start_task_spec.
    match goal with
    | |- context [mfor l start_task ?s1] => destruct (IH s1) as [H1 H2]
    end.
    cbn [tasks] in *. split.
    + intros k. rewrite H1, tasks_set_keys. cbn [map In].
      destruct (dict_mem pyobj_eqb (tasks s) (PStr p)) eqn:E.
      * apply tasks_mem_in in E. split; [tauto|].
        intros [H|[<-|H]]; tauto.
      * rewrite in_app_iff. cbn [In]. tauto.
    + intros Hnd. apply H2, tasks_set_nodup, Hnd.
Qed.

Lemma PStr_nodup (l : list string) : NoDup (map PStr l) <-> NoDup l.
Proof.
  split.
  - apply NoDup_map_inv.
  - intros H. induction H as [|x l Hx Hl IH]; cbn; constructor; [|exact IH].
    intros Hin. apply in_map_iff in Hin.
    destruct Hin as (q & [= ->] & Hq). contradiction.
Qed.

(** X6.  After startup the dictionary [tasks] has one entry per distinct
    active proxy: a proxy is a key exactly when it is active and no key
    occurs twice.  A proxy that the file lists twice therefore gets a
    task for each line but only one of them is tracked: there are as many
    tracked tasks as active proxies exactly when no active proxy is
    repeated, and fewer otherwise. *)
Theorem startup_tracks_one_task_per_proxy
    (w : world) (candidates : list string) :
  proxy_lines w = Some candidates ->
  strip (token_input w) <> EmptyString ->
  validated_from w 0 candidates <> [] ->
  (forall p, dict_mem pyobj_eqb (tasks (snd (startup w initial_sup))) (PStr p)
             = true <-> In p (validated_from w 0 candidates)) /\
  NoDup (map fst (tasks (snd (startup w initial_sup)))) /\
  List.length (tasks (snd (startup w initial_sup)))
  <= List.length (validated_from w 0 candidates) /\
  (List.length (tasks (snd (startup w initial_sup)))
   = List.length (validated_from w 0 candidates)
   <-> NoDup (validated_from w 0 candidates)).
Proof.
  intros Hf Ht Hv. unfold startup. run_sup. rewrite Hf. run_sup.
  destruct (String.eqb_spec (strip (token_input w)) EmptyString) as [E|_];
    [contradiction|].
  run_sup. rewrite validate_all_spec. run_sup. cbn [app initial_sup].
  destruct (validated_from w 0 candidates) as [|v vs]; [congruence|].
  generalize (v :: vs). clear v vs Hv. intros l.
  match goal with
  | |- context [mfor l start_task ?s1] =>
      destruct (mfor_start_task_keys l s1) as [Hkeys Hnd];
      set (d := tasks (snd (mfor l start_task s1))) in *
  end.
  cbn [tasks initial_sup map In] in Hkeys, Hnd.
  specialize (Hnd (NoDup_nil _)).
  assert (Hincl1 : incl (map fst d) (map PStr l))
    by (intros k Hk; apply Hkeys in Hk; tauto).
  assert (Hincl2 : incl (map PStr l) (map fst d))
    by (intros k Hk; apply Hkeys; tauto).
  assert (Hlen : List.length d <= List.length l).
  { rewrite <- (length_map fst d), <- (length_map PStr l).
    now apply NoDup_incl_length. }
  repeat split; try assumption.
  - intros H. apply tasks_mem_in, Hkeys in H. destruct H as [[]|H].
    apply in_map_iff in H. destruct H as (q & [= ->] & Hq). exact Hq.
  - intros H. apply tasks_mem_in, Hkeys. right. now apply in_map.
  - intros Heq. apply PStr_nodup.
    apply (NoDup_incl_NoDup Hnd); [|assumption].
    rewrite !length_map. lia.
  - intros Hl. apply PStr_nodup in Hl.
    pose proof (NoDup_incl_length Hl Hincl2) as H.
    rewrite !length_map in H. lia.
Qed.

(** X6 in the scenario: two active proxies, two tracked tasks. *)
Lemma startup_tracks_one_task_per_proxy_witness :
  List.length (tasks (snd (startup scenario initial_sup))) <= 2.
Proof.
  apply (startup_tracks_one_task_per_proxy scenario ["p1"; "p2"; "p3"]).
  - reflexivity.
  - vm_compute. discriminate.
  - vm_compute. discriminate.
Defined.

Lemma rearm_step (p : string) (s : sup) :
  fst (rearm p s) = Ok tt /\
  dict_mem pyobj_eqb (tasks (snd (rearm p s))) (PStr p) = true /\
  (forall k t, dict_get pyobj_eqb (tasks s) k = Some t ->
               dict_get pyobj_eqb (tasks (snd (rearm p s))) k = Some t) /\
  (dict_mem pyobj_eqb (tasks s) (PStr p) = true -> rearm p s = (Ok tt, s)).
Proof.
  unfold rearm. run_sup.
  destruct (dict_mem pyobj_eqb (tasks s) (PStr p)) eqn:E; run_sup.
  - repeat split; auto.
  - rewrite start_task_spec. cbn [fst snd tasks].
    repeat split; try discriminate.
    + unfold dict_mem. now rewrite tasks_get_set_same.
    + intros k t Hk. rewrite tasks_get_set_other; [assumption|].
      intros <-. unfold dict_mem in E. rewrite Hk in E. discriminate.
Qed.

(** X7.  The re-arming loop of lines 185-187 never raises, leaves every
    proxy it visits with a tracked task, never replaces a task that is
    tracked, and does nothing at all when every proxy it visits already
    has one. *)
Theorem rearm_loop (l : list string) (s : sup) :
  fst (mfor l rearm s) = Ok tt /\
  (forall p, In p l ->
             dict_mem pyobj_eqb (tasks (snd (mfor l rearm s))) (PStr p)
             = true) /\
  (forall k t, dict_get pyobj_eqb (tasks s) k = Some t ->
               dict_get pyobj_eqb (tasks (snd (mfor l rearm s))) k = Some t) /\
  ((forall p, In p l -> dict_mem pyobj_eqb (tasks s) (PStr p) = true) ->
   mfor l rearm s = (Ok tt, s)).
Proof.
  revert s. induction l as [|p l IH]; intros s.
  - cbn. repeat split; auto; intros p [].
  - rewrite mfor_cons.
    destruct (rearm_step p s) as (H1 & H2 & H3 & H4).
    destruct (rearm p s) as [[[]|e] s1] eqn:Er; cbn [fst snd] in *;
      [|discriminate].
    destruct (IH s1) as (I1 & I2 & I3 & I4).
    repeat split.
    + assumption.
    + intros q [<-|Hq]; [|now apply I2].
      unfold dict_mem in *.
      destruct (dict_get pyobj_eqb (tasks s1) (PStr p)) as [t|] eqn:Et;
        [|discriminate].
      now rewrite (I3 _ _ Et).
    + intros k t Hk. apply I3, H3, Hk.
    + intros Hall.
      assert (Hs : s1 = s).
      { specialize (H4 (Hall p (or_introl eq_refl))). congruence. }
      subst s1. apply I4. intros q Hq. apply Hall. now right.
Qed.

(** X7 after the startup of the scenario: the loop has nothing to do. *)
Lemma rearm_loop_witness :
  mfor ["p1"; "p3"] rearm (snd (startup scenario initial_sup))
  = (Ok tt, snd (startup scenario initial_sup)).
Proof.
  apply (rearm_loop ["p1"; "p3"] (snd (startup scenario initial_sup))).
  intros p [<-|[<-|[]]]; reflexivity.
Defined.

(** X8.  The replacement step takes the front of [all_proxies] unchecked.
    Whatever that proxy is, it ends up in [active_proxies]: the failed
    proxy itself when it is the front, and a second time when it is still
    active, so that [active_proxies] then holds it twice. *)
Theorem replacement_takes_front_unchecked
    (s : sup) (p b : string) (backlog rest : list string) :
  list_remove (PStr p) (active_proxies s) = Some rest ->
  all_proxies s = b :: backlog ->
  In b (active_proxies (snd (replace_failed (PStr p) s))) /\
  (In b rest ->
   ~ NoDup (active_proxies (snd (replace_failed (PStr p) s)))).
Proof.
  intros Hrm Hall.
  rewrite (replace_failed_spec s p b backlog rest Hrm Hall).
  cbn [snd active_proxies]. split.
  - apply in_or_app. right. now left.
  - intros Hb Hnd. apply NoDup_remove_2 in Hnd.
    apply Hnd. rewrite app_nil_r. exact Hb.
Qed.

(** X8 with the failed proxy at the front of [all_proxies]: it is put
    back. *)
Lemma replacement_takes_front_unchecked_witness :
  In "p1"
     (active_proxies
        (snd (replace_failed (PStr "p1")
                {| all_proxies := ["p1"; "p3"];
                   active_proxies := ["p1"; "p3"];
                   tasks := [(PStr "p1", 0); (PStr "p3", 1)];
                   next_task := 2;
                   trace := [] |}))).
Proof.
  apply (replacement_takes_front_unchecked
           {| all_proxies := ["p1"; "p3"];
              active_proxies := ["p1"; "p3"];
              tasks := [(PStr "p1", 0); (PStr "p3", 1)];
              next_task := 2;
              trace := [] |} "p1" "p1" ["p3"] ["p3"]); reflexivity.
Defined.

(* ================================================================== *)
(** * Further properties: validation, the session store, the task body *)
(* ================================================================== *)

(** X9.  What [valid_resp] lets through is the object it was given, and
    that object is a [dict] that has a ["code"] for which the comparison
    [< 0] of line 40 came out false without raising, so that the
    [.get("data", ...)] of line 140 cannot fail on it.  What it raises
    is [ValueError("Invalid response")] or a [TypeError], never the
    [KeyError] of a missing ["code"]: the membership test comes first. *)
Theorem valid_resp_lets_through_dicts (resp : json) :
  (forall v, valid_resp resp = Ok v ->
     v = resp /\
     (exists d c,
         resp = JObj d /\ dict_get String.eqb d "code" = Some c /\
         py_lt c 0 = Ok false) /\
     exists data, py_get v "data" (JObj []) = Ok data)
  /\ (forall e, valid_resp resp = Raise e ->
        e = invalid_response \/ e = TypeError).
Proof.
  split.
  - intros v Hv. destruct (valid_resp_ok_marker resp v Hv) as (-> & c & Hm & Hlt).
    destruct resp as [| | | | |d]; try discriminate. cbn [marker] in Hm.
    split; [reflexivity|]. split.
    + exists d, c. repeat split; assumption.
    + eexists. reflexivity.
  - intros e. unfold valid_resp. destruct (truthy resp); cbn [negb].
    2:{ intros [= <-]. now left. }
    destruct (py_in "code" resp) as [has|e1] eqn:Hin; cbn [rbind].
    2:{ destruct resp; cbn in Hin; try discriminate;
        injection Hin as <-; intros [= <-]; now right. }
    destruct has; cbn [negb]; [|intros [= <-]; now left].
    destruct (py_getitem resp "code") as [c|e2] eqn:Hget; cbn [rbind].
    2:{ destruct resp as [| | |s0|l|d]; cbn in Hin, Hget;
          try discriminate; try (injection Hget as <-; intros [= <-]; now right).
        unfold dict_mem in Hin. injection Hin as Hin.
        destruct (dict_get String.eqb d "code"); discriminate. }
    destruct (py_lt c 0) as [[|]|e3] eqn:Hlt; cbn [rbind]; try discriminate.
    + intros [= <-]. now left.
    + destruct c; cbn in Hlt; try discriminate;
        injection Hlt as <-; intros [= <-]; now right.
Qed.

(** X9 on an accepted body. *)
Lemma valid_resp_lets_through_dicts_witness :
  exists data,
    py_get (JObj [("code", JInt 0); ("data", JObj [("uid", JStr "u1")])])
           "data" (JObj []) = Ok data.
Proof.
  destruct (valid_resp_lets_through_dicts
              (JObj [("code", JInt 0); ("data", JObj [("uid", JStr "u1")])]))
    as [H _].
  apply (H _ eq_refl).
Defined.

Section MoreTaskFacts.
Context {codec : JsonCodec}.

(** [render_profile_info] unfolded into its paths, on a state in which
    [load_session_info] returns [v]. *)
Lemma render_paths (fresh : string) (post : http_result) (s : env) (v : json) :
  fst (load_session_info s) = Ok v ->
  render_profile_info fresh post s =
  if truthy v then
    match py_get v "browser_id" JNull with
    | Ok bid => (Ok v, with_browser_id bid (with_account_info v s))
    | Raise e => (Raise e, with_account_info v s)
    end
  else
    match post with
    | NetError => (Raise ClientError, with_browser_id (JStr fresh) s)
    | Response status body =>
        if (status =? 200)%Z then
          match body with
          | None => (Raise ContentError, with_browser_id (JStr fresh) s)
          | Some j =>
              match valid_resp j, py_get j "data" (JObj []) with
              | Ok _, Ok data =>
                  match py_get data "uid" JNull with
                  | Ok uid =>
                      if truthy uid then
                        (Ok data,
                         with_session_text (json_dumps data)
                           (with_account_info data
                              (with_browser_id (JStr fresh) s)))
                      else
                        (Ok data,
                         with_account_info data
                           (with_browser_id (JStr fresh) s))
                  | Raise e =>
                      (Raise e,
                       with_account_info data
                         (with_browser_id (JStr fresh) s))
                  end
              | Raise e, _ => (Raise e, with_browser_id (JStr fresh) s)
              | Ok _, Raise e => (Raise e, with_browser_id (JStr fresh) s)
              end
          end
        else (Ok (account_info (glob s)), with_browser_id (JStr fresh) s)
    end.
Proof.
  intros Hload.
  destruct (load_session_info_returns s) as [v' Hv].
  rewrite Hv in Hload. cbn in Hload. injection Hload as ->.
  unfold render_profile_info, save_session_info. run_env. rewrite Hv. run_env.
  destruct (truthy v); run_env.
  - destruct (py_get v "browser_id" JNull); reflexivity.
  - destruct post as [|status body]; run_env; [reflexivity|].
    destruct (status =? 200)%Z; run_env; [|reflexivity].
    destruct body as [j|]; run_env; [|reflexivity].
    destruct (valid_resp j); run_env;
      [|destruct (py_get j "data" (JObj [])); reflexivity].
    destruct (py_get j "data" (JObj [])) as [data|]; run_env; [|reflexivity].
    destruct (py_get data "uid" JNull) as [uid|]; run_env; [|reflexivity].
    destruct (truthy uid); reflexivity.
Qed.

(** X10.  [save_session_info] on a value that is not a [dict] writes the
    file and then raises [AttributeError] in its log line: the caller
    sees a failure, and the file holds the value all the same. *)
Theorem save_writes_before_it_raises (data : json) (s : env) :
  ~ is_dict data ->
  save_session_info data s
  = (Raise AttributeError, with_session_text (json_dumps data) s).
Proof.
  intros Hd. unfold save_session_info. run_env.
  destruct data as [| | | | |d]; try reflexivity.
  exfalso. apply Hd. now exists d.
Qed.

Lemma save_state (data : json) (s : env) :
  snd (save_session_info data s) = with_session_text (json_dumps data) s.
Proof.
  unfold save_session_info. run_env.
  destruct (py_get data "uid" JNull); reflexivity.
Qed.

(** What a run of [render_profile_info] does to [status_connect] and to
    the session file. *)
Lemma render_effects
    (fresh : string) (post : http_result) (s : env) :
  status_connect (glob (snd (render_profile_info fresh post s)))
  = status_connect (glob s) /\
  (session_file (snd (render_profile_info fresh post s)) = session_file s
   \/ exists found body data uid,
        fst (load_session_info s) = Ok found /\ truthy found = false /\
        post = Response 200 (Some body) /\
        valid_resp body = Ok body /\
        py_get body "data" (JObj []) = Ok data /\
        py_get data "uid" JNull = Ok uid /\ truthy uid = true /\
        fst (render_profile_info fresh post s) = Ok data /\
        session_file (snd (render_profile_info fresh post s))
        = Some (Text (json_dumps data))).
Proof.
  destruct (load_session_info_returns s) as [v Hv].
  rewrite (render_paths fresh post s v) by (rewrite Hv; reflexivity).
  destruct (truthy v) eqn:Hvt.
  { destruct (py_get v "browser_id" JNull); split; auto. }
  destruct post as [|status body]; [split; auto|].
  destruct (Z.eqb_spec status 200) as [->|Hne]; [|split; auto].
  destruct body as [j|]; [|split; auto].
  destruct (valid_resp j) as [j'|e] eqn:Hj;
    [|destruct (py_get j "data" (JObj [])); split; auto].
  destruct (py_get j "data" (JObj [])) as [data|e] eqn:Hdata; [|split; auto].
  destruct (py_get data "uid" JNull) as [uid|e] eqn:Huid; [|split; auto].
  destruct (truthy uid) eqn:Hu; [|split; auto].
  split; [reflexivity|]. right. exists v, j, data, uid.
  apply valid_resp_ok_marker in Hj as Hj'. destruct Hj' as [-> _].
  rewrite Hv. repeat split; assumption.
Qed.


End MoreTaskFacts.

(** X11.  The last save wins.  After two saves the state is that after
    the second alone, whatever the first one wrote and whether or not
    either raised, and [load_session_info] returns the second value,
    provided its dictionaries have pairwise different keys. *)
Theorem last_save_wins (first second : json) (s : env) :
  Json.unique_keys second ->
  snd (save_session_info second (snd (save_session_info first s)))
  = snd (save_session_info second s) /\
  fst (load_session_info
         (snd (save_session_info second (snd (save_session_info first s)))))
  = Ok second.
Proof.
  intros Hu. rewrite !save_state. split; [reflexivity|].
  unfold load_session_info. run_env. cbn [with_session_text session_file].
  cbn [json_loads json_dumps python_json].
  rewrite (JsonFacts.loads_dumps second Hu). reflexivity.
Qed.

(** X11 with a list saved over a record: the save of the list raises, and
    the list is what a load returns. *)
Lemma last_save_wins_witness :
  fst (load_session_info
         (snd (save_session_info (JList [JInt 1; JInt 2])
                 (snd (save_session_info (JObj [("uid", JStr "u1")])
                         first_run)))))
  = Ok (JList [JInt 1; JInt 2]).
Proof.
  apply (last_save_wins (JObj [("uid", JStr "u1")]) (JList [JInt 1; JInt 2])
           first_run).
  cbn. auto.
Defined.

(** X10 on a list. *)
Lemma save_writes_before_it_raises_witness :
  fst (save_session_info (JList [JInt 1]) first_run) = Raise AttributeError.
Proof.
  rewrite (save_writes_before_it_raises (JList [JInt 1]) first_run).
  - reflexivity.
  - intros [d H]. discriminate.
Defined.

Section SessionPaths.
Context {codec : JsonCodec}.

Lemma load_reads_the_file_only (s s' : env) :
  session_file s = session_file s' ->
  fst (load_session_info s) = fst (load_session_info s').
Proof.
  intros H. unfold load_session_info. run_env. rewrite H.
  destruct (session_file s') as [[|content]|]; try reflexivity.
  destruct (json_loads content); reflexivity.
Qed.

Lemma handle_ping_status (post : http_result) (s : env) :
  snd (handle_ping post s) = s \/
  snd (handle_ping post s) = with_status CONNECTED s.
Proof.
  rewrite handle_ping_paths.
  destruct (py_get (account_info (glob s)) "uid" JNull); [|now left].
  destruct post as [|status [body|]]; try (now left).
  destruct (status =? 200)%Z; [|now left].
  destruct (valid_resp body); [|now left].
  destruct (py_getitem body "code") as [c|]; [|now left].
  destruct (py_eq_int c 0); [now right | now left].
Qed.

Lemma run_op_status (op : task_op) (s : env) :
  status_connect (glob (run_op op s)) = status_connect (glob s) \/
  status_connect (glob (run_op op s)) = CONNECTED.
Proof.
  destruct op as [post | fresh post]; cbn [run_op].
  - destruct (handle_ping_status post s) as [-> | ->]; [now left | now right].
  - left. apply render_effects.
Qed.

(** X14.  [status_connect] only ever moves to [CONNECTED].  Over any
    sequence of heartbeats and session establishments, answered in any
    way, it keeps its value or becomes [CONNECTED]; once [CONNECTED] it
    stays so, and it is never set to [DISCONNECTED]. *)
Theorem status_connect_only_rises (ops : list task_op) (s : env) :
  (status_connect (glob (run_ops ops s)) = status_connect (glob s) \/
   status_connect (glob (run_ops ops s)) = CONNECTED) /\
  (status_connect (glob s) = CONNECTED ->
   status_connect (glob (run_ops ops s)) = CONNECTED) /\
  (status_connect (glob s) <> DISCONNECTED ->
   status_connect (glob (run_ops ops s)) <> DISCONNECTED).
Proof.
  assert (H : status_connect (glob (run_ops ops s)) = status_connect (glob s)
              \/ status_connect (glob (run_ops ops s)) = CONNECTED).
  { revert s. induction ops as [|op ops IH]; intros s; [now left|].
    unfold run_ops in *. cbn [fold_left].
    destruct (IH (run_op op s)) as [-> | ->]; [|now right].
    apply run_op_status. }
  split; [exact H|]. split.
  - intros Hs. destruct H as [-> | ->]; [assumption|reflexivity].
  - intros Hs. destruct H as [-> | ->]; [assumption|discriminate].
Qed.

(** X15.  A session file that holds a false JSON value (an empty object
    or list, [null], [0], [false], an empty string) counts as no session:
    [render_profile_info] returns or raises the same, leaves the same
    globals and, when it saves, the same file as a run with no file; when
    it does not save, each run leaves its file as it found it. *)
Theorem false_session_is_no_session
    (content : string) (v : json) (g : globals)
    (fresh : string) (post : http_result) :
  json_loads content = Some v -> truthy v = false ->
  let stale := {| glob := g; session_file := Some (Text content) |} in
  let first := {| glob := g; session_file := None |} in
  fst (render_profile_info fresh post stale)
  = fst (render_profile_info fresh post first) /\
  glob (snd (render_profile_info fresh post stale))
  = glob (snd (render_profile_info fresh post first)) /\
  (session_file (snd (render_profile_info fresh post stale))
   = session_file (snd (render_profile_info fresh post first))
   \/ (session_file (snd (render_profile_info fresh post stale))
       = Some (Text content) /\
       session_file (snd (render_profile_info fresh post first)) = None)).
Proof.
  intros Hload Hv stale first. subst stale first.
  rewrite (render_paths fresh post _ v)
    by (unfold load_session_info; run_env; now rewrite Hload).
  rewrite (render_paths fresh post _ JNull) by reflexivity.
  rewrite Hv. cbn [truthy].
  destruct post as [|status body]; [auto|].
  destruct (status =? 200)%Z; [|auto].
  destruct body as [j|]; [|auto].
  destruct (valid_resp j);
    [|destruct (py_get j "data" (JObj [])); auto].
  destruct (py_get j "data" (JObj [])) as [data|]; [|auto].
  destruct (py_get data "uid" JNull) as [uid|]; [|auto].
  destruct (truthy uid); auto.
Qed.

(** X16.  A session file that holds a true JSON value which is not an
    object makes every task fail: [render_profile_info] stores the value
    in [account_info] and raises [AttributeError] without sending a
    request, every later heartbeat returns [False] without sending one,
    and every later [render_profile_info] raises again. *)
Theorem wrong_shape_session_poisons (s : env) (v : json) :
  fst (load_session_info s) = Ok v -> truthy v = true -> ~ is_dict v ->
  (forall fresh post,
      render_profile_info fresh post s
      = (Raise AttributeError, with_account_info v s)) /\
  (forall post,
      handle_ping post (with_account_info v s)
      = (Ok false, with_account_info v s)) /\
  (forall fresh post,
      fst (render_profile_info fresh post (with_account_info v s))
      = Raise AttributeError).
Proof.
  intros Hload Hv Hd.
  assert (Hget : forall k, py_get v k JNull = Raise AttributeError).
  { intros k. destruct v as [| | | | |d]; try reflexivity.
    exfalso. apply Hd. now exists d. }
  assert (Hr : forall fresh post s0,
             fst (load_session_info s0) = Ok v ->
             render_profile_info fresh post s0
             = (Raise AttributeError, with_account_info v s0)).
  { intros fresh post s0 H0.
    rewrite (render_paths fresh post s0 v H0), Hv, Hget. reflexivity. }
  repeat split.
  - intros fresh post. now apply Hr.
  - intros post. rewrite handle_ping_paths.
    cbn [with_account_info glob account_info]. now rewrite Hget.
  - intros fresh post. rewrite Hr; [reflexivity|].
    rewrite <- Hload. now apply load_reads_the_file_only.
Qed.

End SessionPaths.

(** X14 from the module's initial state, after a rejected and an accepted
    heartbeat. *)
Lemma status_connect_only_rises_witness :
  status_connect
    (glob (run_ops [OpPing rejected_reply;
                    OpPing (Response 200 (Some (JObj [("code", JInt 0)])));
                    OpRender "u" NetError] first_run))
  <> DISCONNECTED.
Proof.
  apply (status_connect_only_rises
           [OpPing rejected_reply;
            OpPing (Response 200 (Some (JObj [("code", JInt 0)])));
            OpRender "u" NetError] first_run).
  discriminate.
Defined.

(** X15 on a file that holds an empty object. *)
Lemma false_session_is_no_session_witness :
  fst (render_profile_info "u" created_reply
         {| glob := initial_globals; session_file := Some (Text "{}") |})
  = fst (render_profile_info "u" created_reply first_run).
Proof.
  apply (false_session_is_no_session "{}" (JObj []) initial_globals
           "u" created_reply); reflexivity.
Defined.

(** X16 on a file that holds a list. *)
Lemma wrong_shape_session_poisons_witness :
  handle_ping (Response 200 (Some (JObj [("code", JInt 0)])))
    (with_account_info (JList [JInt 1])
       {| glob := initial_globals; session_file := Some (Text "[1]") |})
  = (Ok false,
     with_account_info (JList [JInt 1])
       {| glob := initial_globals; session_file := Some (Text "[1]") |}).
Proof.
  apply (wrong_shape_session_poisons
           {| glob := initial_globals; session_file := Some (Text "[1]") |}
           (JList [JInt 1])).
  - reflexivity.
  - reflexivity.
  - intros [d H]. discriminate.
Defined.

(** X13.  A session that was created and saved is reused from then on.
    When a run finds no usable record, gets a create-session reply that
    passes [valid_resp] and carries data with a true ["uid"] (and
    pairwise different keys), then every later run that finds the file it
    left, also in a restarted process and whatever it is answered,
    returns those data without using the answer, and takes [browser_id]
    from the data, [None] when they have none. *)
Theorem saved_session_is_reused
    (fresh : string) (s : env) (found body data uid : json) :
  fst (load_session_info s) = Ok found -> truthy found = false ->
  valid_resp body = Ok body ->
  py_get body "data" (JObj []) = Ok data ->
  py_get data "uid" JNull = Ok uid -> truthy uid = true ->
  Json.unique_keys data ->
  let s1 := snd (render_profile_info fresh (Response 200 (Some body)) s) in
  fst (render_profile_info fresh (Response 200 (Some body)) s) = Ok data /\
  forall (g : globals) (fresh' : string) (post' : http_result),
    exists bid,
      py_get data "browser_id" JNull = Ok bid /\
      render_profile_info fresh' post'
        {| glob := g; session_file := session_file s1 |}
      = (Ok data,
         {| glob := {| status_connect := status_connect g;
                       browser_id := bid;
                       account_info := data |};
            session_file := session_file s1 |}).
Proof.
  intros Hload Hfound Hbody Hdata Huid Hu Hkeys s1. subst s1.
  rewrite (render_paths fresh _ s found Hload), Hfound.
  cbn [Z.eqb Pos.eqb]. rewrite Hbody, Hdata, Huid, Hu.
  split; [reflexivity|]. intros g fresh' post'.
  cbn [snd with_session_text session_file].
  destruct data as [| | | | |d]; try discriminate.
  destruct d as [|kv d]; [cbn in Huid; injection Huid as <-; discriminate|].
  eexists. split; [reflexivity|].
  rewrite (session_record_adopted fresh' post' _ kv d); [reflexivity|].
  unfold load_session_info. run_env.
  cbn [json_loads json_dumps python_json].
  now rewrite (JsonFacts.loads_dumps _ Hkeys).
Qed.

(** X13 on the reply that creates the session of account ["u1"]. *)
Lemma saved_session_is_reused_witness :
  fst (render_profile_info "uuid-1" created_reply first_run)
  = Ok (JObj [("uid", JStr "u1")]).
Proof.
  apply (saved_session_is_reused "uuid-1" first_run JNull
           (JObj [("code", JInt 0); ("data", JObj [("uid", JStr "u1")])])
           (JObj [("uid", JStr "u1")]) (JStr "u1")); try reflexivity.
  cbn. repeat split; repeat constructor; cbn; intuition discriminate.
Defined.

(* ================================================================== *)
(** * Further properties: the proxy file *)
(* ================================================================== *)

Lemma append_empty_r (s : string) : (s ++ EmptyString)%string = s.
Proof. induction s as [|c s IH]; cbn; [reflexivity | now rewrite IH]. Qed.

Lemma append_snoc (cur : string) (c : ascii) (l : string) :
  ((cur ++ String c EmptyString) ++ l)%string = (cur ++ String c l)%string.
Proof. induction cur as [|a cur IH]; cbn; [reflexivity | now rewrite IH]. Qed.

Lemma string_forallb_app (f : ascii -> bool) (a b : string) :
  string_forallb f (a ++ b)%string
  = string_forallb f a && string_forallb f b.
Proof.
  induction a as [|c a IH]; cbn; [reflexivity|].
  now rewrite IH, andb_assoc.
Qed.

Lemma split_from_lines (n : nat) :
  forall (s cur : string),
    String.length s <= n ->
    string_forallb (fun c => negb (is_linebreak c)) cur = true ->
    Forall (fun l => string_forallb (fun c => negb (is_linebreak c)) l = true)
           (split_from cur s).
Proof.
  induction n as [|n IH]; intros s cur Hlen Hcur.
  - destruct s; [|cbn in Hlen; lia].
    cbn. destruct cur; repeat constructor. exact Hcur.
  - destruct s as [|c s].
    { cbn. destruct cur; repeat constructor. exact Hcur. }
    cbn [String.length] in Hlen. cbn [split_from].
    destruct (is_linebreak c) eqn:Hc.
    + constructor; [exact Hcur|].
      destruct s as [|c' s']; [constructor|].
      destruct ((c =? "013") && (c' =? "010"))%char.
      * apply IH; [cbn [String.length] in Hlen; lia | reflexivity].
      * apply IH; [lia | reflexivity].
    + apply IH; [lia|].
      rewrite string_forallb_app, Hcur. cbn. now rewrite Hc.
Qed.

Lemma split_from_line (l rest cur : string) :
  string_forallb (fun c => negb (is_linebreak c)) l = true ->
  split_from cur (l ++ String "010" rest)%string
  = (cur ++ l)%string :: split_from EmptyString rest.
Proof.
  revert cur. induction l as [|c l IH]; intros cur Hl.
  - cbn [append split_from]. rewrite append_empty_r.
    replace (is_linebreak "010") with true by reflexivity.
    destruct rest; reflexivity.
  - cbn [string_forallb] in Hl. apply andb_true_iff in Hl.
    destruct Hl as [Hc Hl]. apply negb_true_iff in Hc.
    cbn [append split_from]. rewrite Hc, (IH _ Hl), append_snoc.
    reflexivity.
Qed.

(** X17.  The lines [load_proxies] returns never contain a line break,
    and a proxy file written one entry per line, each line ended by a
    line feed, is read back as exactly those entries, in order, empty
    lines included. *)
Theorem proxy_file_lines (ls : list string) (content : string) :
  Forall (fun l => string_forallb (fun c => negb (is_linebreak c)) l = true)
         (splitlines content) /\
  (Forall (fun l => string_forallb (fun c => negb (is_linebreak c)) l = true)
          ls ->
   read_proxies (Some (Text (unlines ls))) = Ok ls).
Proof.
  split.
  - apply (split_from_lines (String.length content)); [lia|reflexivity].
  - intros Hls. cbn [read_proxies]. f_equal. unfold splitlines.
    induction Hls as [|l ls Hl _ IH]; [reflexivity|].
    cbn [unlines]. rewrite (split_from_line l _ _ Hl). cbn [append].
    now rewrite IH.
Qed.

(** X17 on a file of three lines, the second one empty. *)
Lemma proxy_file_lines_witness :
  read_proxies (Some (Text (unlines ["1.2.3.4:80"; EmptyString; "h:1"])))
  = Ok ["1.2.3.4:80"; EmptyString; "h:1"].
Proof.
  apply (proxy_file_lines ["1.2.3.4:80"; EmptyString; "h:1"] EmptyString).
  repeat constructor.
Defined.

(** X18.  With no proxy to try, nothing is run: when the proxy file is
    missing, unreadable or empty, [main] ends in [SystemExit], whatever
    the token, without a validation request, a task or a wait. *)
Theorem no_proxies_no_run (f : option file) (w : world) (n : nat) :
  f = None \/ f = Some Unreadable \/ f = Some (Text EmptyString) ->
  fst (main (with_proxy_file f w) n initial_sup) = Raise SystemExit /\
  trace (snd (main (with_proxy_file f w) n initial_sup)) = [].
Proof.
  intros Hf. rewrite main_unfold.
  destruct Hf as [-> | [-> | ->]].
  1,2: rewrite startup_no_file by reflexivity; now split.
  destruct (String.eqb_spec
              (strip (token_input (with_proxy_file (Some (Text EmptyString)) w)))
              EmptyString) as [Ht|Ht].
  - rewrite (startup_no_token _ []) by (reflexivity || assumption).
    now split.
  - destruct (startup_spec (with_proxy_file (Some (Text EmptyString)) w) []
                eq_refl Ht) as (_ & _ & Hnone & _).
    destruct (Hnone eq_refl) as [Hexit Htrace].
    destruct (startup (with_proxy_file (Some (Text EmptyString)) w)
                initial_sup) as [[u|e] s1]; cbn [fst snd] in *;
      [discriminate|].
    now split.
Qed.

(** X18 on an empty proxy file. *)
Lemma no_proxies_no_run_witness :
  fst (main (with_proxy_file (Some (Text EmptyString)) scenario) 4
         initial_sup) = Raise SystemExit.
Proof.
  apply (no_proxies_no_run (Some (Text EmptyString)) scenario 4).
  right. now right.
Defined.

(* ================================================================== *)
(** * Further properties: the tasks in the event loop *)
(* ================================================================== *)


